(** * Stronghold connector: request signing, error classification, normalizers

    A shallow embedding of [js/stronghold.js] (class [stronghold extends
    Exchange]).  JavaScript values are an inductive type, objects are finite
    maps keyed by strings, numbers are IEEE binary64 floats, and a call that
    can throw returns in a small error monad.  The methods inherited from
    [base/Exchange.js] are interfaces ([Accessors], [Dates], [Currencies],
    [Helpers]) the definitions are parametric in. *)

From Stdlib Require Import ZArith String Ascii List Bool Floats.
From stdpp Require Import gmap strings pretty.

Local Open Scope string_scope.

#[local] Set Warnings "-register-all,-inexact-float".

(** ** JavaScript values *)

Inductive value : Type :=
| VUndef
| VNull
| VBool (b : bool)
| VNum (x : float)
| VStr (s : string)
| VArr (l : list value)
| VObj (o : gmap string value).

Abbreviation obj := (gmap string value).

(** [o[k]] on a decoded JSON value: own properties only; a missing key and a
    primitive receiver both read as [undefined]. *)
Definition prop (o : value) (k : string) : value :=
  match o with
  | VObj m => default VUndef (m !! k)
  | _ => VUndef
  end.

(** [a[i]] on an array. *)
Definition index (l : list value) (i : nat) : value := default VUndef (l !! i).

(** ToBoolean. *)
Definition truthy (v : value) : bool :=
  match v with
  | VUndef | VNull => false
  | VBool b => b
  | VNum x => negb (PrimFloat.is_nan x || PrimFloat.is_zero x)
  | VStr s => negb (String.eqb s "")
  | VArr _ | VObj _ => true
  end.

(** The property key denoted by a key expression that is a string or
    [undefined]. *)
Definition key_of (k : option string) : string := default "undefined" k.

Definition of_optstr (s : option string) : value :=
  match s with Some s => VStr s | None => VUndef end.

Definition of_optnum (x : option float) : value :=
  match x with Some x => VNum x | None => VUndef end.

(** ToNumber of a value that is a number or [undefined]. *)
Definition to_number (x : option float) : float :=
  match x with Some x => x | None => PrimFloat.nan end.

(** The binary [-] on two such values. *)
Definition js_sub (a b : option float) : float :=
  PrimFloat.sub (to_number a) (to_number b).

(** [Number.isFinite]. *)
Definition isFinite (x : float) : bool :=
  negb (PrimFloat.is_nan x || PrimFloat.is_infinity x).

(** *** [parseFloat]

    The built-in reads the longest prefix of the trimmed input that is a
    StrDecimalLiteral and rounds its exact decimal value to the nearest
    binary64 number, ties to even; no such prefix gives NaN. *)

Definition is_ws (c : ascii) : bool :=
  let n := N_of_ascii c in
  ((9 <=? n) && (n <=? 13) || (n =? 32))%N.

Definition digit_of (c : ascii) : option N :=
  let n := N_of_ascii c in
  if ((48 <=? n) && (n <=? 57))%N then Some (n - 48)%N else None.

Fixpoint skip_ws (s : string) : string :=
  match s with
  | String c r => if is_ws c then skip_ws r else s
  | EmptyString => s
  end.

(** Reads a run of decimal digits onto [acc]; returns the number read, how
    many digits it took and the rest of the input. *)
Fixpoint read_digits (s : string) (acc : N) (cnt : Z) : N * Z * string :=
  match s with
  | String c r =>
      match digit_of c with
      | Some d => read_digits r (acc * 10 + d)%N (cnt + 1)%Z
      | None => (acc, cnt, s)
      end
  | EmptyString => (acc, cnt, s)
  end.

(** ExponentPart, taken only when complete: [e] or [E], an optional sign and
    at least one digit. *)
Definition read_exponent (s : string) : Z :=
  match s with
  | String c r =>
      if (Ascii.eqb c "e" || Ascii.eqb c "E")%char then
        let '(neg, r) :=
          match r with
          | String "-" r' => (true, r')
          | String "+" r' => (false, r')
          | _ => (false, r)
          end in
        let '(e, cnt, _) := read_digits r 0%N 0%Z in
        if (cnt =? 0)%Z then 0%Z
        else if neg then (- Z.of_N e)%Z else Z.of_N e
      else 0%Z
  | EmptyString => 0%Z
  end.

(** The binary64 number nearest to [(-1)^neg * m * 10^e10]. *)
Definition float_of_decimal (neg : bool) (m : N) (e10 : Z) : float :=
  match m with
  | N0 => if neg then neg_zero else zero
  | Npos p =>
      SF2Prim
        (match e10 with
         | Zneg k =>
             let '(q, e, l) :=
               SFdiv_core_binary prec emax (Zpos p) 0 (10 ^ Zpos k)%Z 0 in
             binary_round_aux prec emax neg q e l
         | _ =>
             match (Zpos p * 10 ^ e10)%Z with
             | Zpos n => binary_round prec emax neg n 0
             | _ => S754_nan
             end
         end)
  end.

Definition parse_unsigned (neg : bool) (s : string) : float :=
  if String.prefix "Infinity" s then
    if neg then neg_infinity else infinity
  else
    let '(ip, ni, r1) := read_digits s 0%N 0%Z in
    let '(m, nf, r2) :=
      match r1 with
      | String "." r => read_digits r ip 0%Z
      | _ => (ip, 0%Z, r1)
      end in
    if ((ni =? 0) && (nf =? 0))%Z then nan
    else float_of_decimal neg m (read_exponent r2 - nf)%Z.

Definition parse_decimal (s : string) : float :=
  match skip_ws s with
  | String "-" r => parse_unsigned true r
  | String "+" r => parse_unsigned false r
  | r => parse_unsigned false r
  end.

(** [parseFloat (v)] first takes ToString of [v]: a number prints so that it
    reads back as itself ([-0] prints as ["0"]), an array prints its elements
    separated by commas, and every other non-string prints as a word that is
    no number. *)
Fixpoint parseFloat (v : value) : float :=
  match v with
  | VStr s => parse_decimal s
  | VNum x => if PrimFloat.is_zero x then zero else x
  | VArr (x :: _) => parseFloat x
  | _ => nan
  end.

(** [s.split ('/')[0]]: the segment before the first ['/']. *)
Fixpoint leading_segment (s : string) : string :=
  match s with
  | String c r => if Ascii.eqb c "/" then "" else String c (leading_segment r)
  | EmptyString => ""
  end.

(** ** Errors and the error monad *)

(** The error classes the source imports from [base/errors], the built-in
    [TypeError] of a property read on [undefined] or [null], and the
    ParseFailure of the specification's section 7. *)
Inductive error : Type :=
| InvalidNonce
| AuthenticationError
| AccountSuspended
| InsufficientFunds
| ExchangeError
| ArgumentsRequired
| NotSupported
| TypeError
| ParseFailure.

Inductive result (A : Type) : Type :=
| Ret (a : A)
| Throw (e : error) (msg : string).
Arguments Ret {A} a.
Arguments Throw {A} e msg.

#[global] Instance result_ret : MRet result := @Ret.

#[global] Instance result_bind : MBind result := fun A B k m =>
  match m with
  | Ret a => k a
  | Throw e msg => Throw e msg
  end.

Definition returns {A : Type} (m : result A) : bool :=
  match m with Ret _ => true | Throw _ _ => false end.

(** ** The exchange instance *)

(** [options['venues']] is an array; the sandbox toggle reads and writes named
    properties on it, kept here next to its elements. *)
Record venues_t : Type := {
  elements : list value;
  named : gmap string value;
}.

Record options_t : Type := {
  accountId : value;
  venueId : value;
  venues : venues_t;
  paymentMethods : gmap string string;
}.

Record exchange : Type := {
  id : string;
  version : string;
  urls_api : gmap string string;
  apiKey : option string;
  secret : option string;
  password : option string;
  options : options_t;
  exceptions : gmap string error;
  markets_by_id : value;
}.

(** [describe ()], lines 11-120: the fields used below. *)
Definition describe : exchange := {|
  id := "stronghold";
  version := "v1";
  urls_api :=
    {[ "public" := "https://api.stronghold.co";
       "private" := "https://api.stronghold.co" ]};
  apiKey := None;
  secret := None;
  password := None;
  options := {|
    accountId := VUndef;
    venueId := VStr "trade-public";
    venues := {| elements := [VStr "trade-public"; VStr "sandbox-public"];
                 named := ∅ |};
    paymentMethods :=
      {[ "ETH" := "ethereum"; "BTC" := "bitcoin"; "XLM" := "stellar" ]};
  |};
  exceptions :=
    {[ "CREDENTIAL_MISSING" := AuthenticationError;
       "CREDENTIAL_INVALID" := AuthenticationError;
       "CREDENTIAL_REVOKED" := AccountSuspended;
       "CREDENTIAL_NO_IDENTITY" := AuthenticationError;
       "PASSPHRASE_INVALID" := AuthenticationError;
       "SIGNATURE_INVALID" := AuthenticationError;
       "TIME_INVALID" := InvalidNonce;
       "BYPASS_INVALID" := AuthenticationError;
       "INSUFFICIENT_FUNDS" := InsufficientFunds ]};
  markets_by_id := VUndef;
|}.

(** The per-currency account [fetchBalance] builds, lines 490-493. *)
Record account_t : Type := {
  total : option float;
  available : option float;
  free : float;
}.

(** ** The inherited methods

    [base/Exchange.js] is the superclass; its methods are taken as
    parameters, grouped by what they do.  An accessor that reads a number can
    throw; the others are total. *)

Class Accessors : Type := {
  safeString : value -> string -> option string;
  safeValue : value -> string -> value;
  safeFloat : value -> string -> option float -> result (option float);
  safeInteger : value -> string -> result (option float);
}.

Class Dates : Type := {
  parse8601 : value -> option float;
  iso8601 : option float -> option string;
}.

Class Currencies : Type := {
  commonCurrencyCode : option string -> option string;
}.

Class Helpers : Type := {
  extend : obj -> obj -> obj;
  implodeParams : string -> obj -> string;
  extractParams : string -> list string;
  omit : obj -> list string -> obj;
  urlencode : obj -> string;
  json : obj -> string;
  encode : string -> string;
  base64ToBinary : option string -> string;
  hmac : string -> string -> string -> string -> string;
  checkRequiredCredentials : exchange -> result unit;
  parseBalance : gmap string account_t -> value;
}.

(** ** [stronghold.js] *)

Section Stronghold.

Context {acc : Accessors} {dates : Dates} {cur : Currencies} {base : Helpers}.

(** *** [fetchCurrencies], lines 221-235

    [data] is [response['result']], the decoded array of assets. *)

Record currency : Type := {
  c_code : option string;
  c_id : option string;
  c_precision : option float;
  c_info : value;
}.

(** The loop body, lines 224-233. *)
Definition fetchCurrencies_entry (entry : value) : result currency :=
  let currencyId := safeString entry "code" in
  let code := commonCurrencyCode currencyId in
  precision ← safeInteger entry "displayDecimalsFull";
  Ret {| c_code := code; c_id := currencyId; c_precision := precision;
         c_info := entry |}.

Fixpoint fetchCurrencies_loop (data : list value) (res : gmap string currency)
  : result (gmap string currency) :=
  match data with
  | [] => Ret res
  | entry :: data =>
      c ← fetchCurrencies_entry entry;
      fetchCurrencies_loop data (<[key_of (c_code c) := c]> res)
  end.

Definition fetchCurrencies (data : list value) : result (gmap string currency) :=
  fetchCurrencies_loop data ∅.

(** *** [parseTrade], lines 307-374 *)

Record fee_t : Type := {
  fee_cost : value;
  fee_currency : value;
  fee_rate : value;
}.

Record trade_t : Type := {
  t_id : value;
  t_info : value;
  t_timestamp : value;
  t_datetime : value;
  t_symbol : value;
  t_type : value;
  t_order : value;
  t_side : value;
  t_price : value;
  t_amount : value;
  t_cost : value;
  t_takerOrMaker : value;
  t_fee : fee_t;
}.

(** [market['symbol']] under the guard [market !== undefined]. *)
Definition market_symbol (market : value) : result value :=
  match market with
  | VUndef => Ret VUndef
  | VNull => Throw TypeError "Cannot read properties of null"
  | _ => Ret (prop market "symbol")
  end.

Definition parseTrade (this : exchange) (trade market : value) : result trade_t :=
  let tail id takerOrMaker price amount side timestamp orderId market :=
    symbol ← market_symbol market;
    Ret {| t_id := id;
           t_info := trade;
           t_timestamp := of_optnum timestamp;
           t_datetime := of_optstr (iso8601 timestamp);
           t_symbol := symbol;
           t_type := VUndef;
           t_order := orderId;
           t_side := side;
           t_price := price;
           t_amount := amount;
           t_cost := VUndef;
           t_takerOrMaker := takerOrMaker;
           t_fee := {| fee_cost := VUndef; fee_currency := VUndef;
                       fee_rate := VUndef |} |} in
  match trade with
  | VArr l =>
      let price := parseFloat (index l 0) in
      let amount := parseFloat (index l 1) in
      let side := parseFloat (index l 2) in
      let timestamp := parse8601 (index l 3) in
      tail VUndef VUndef (VNum price) (VNum amount) (VNum side) timestamp
        VUndef market
  | _ =>
      let id := safeString trade "id" in
      price ← safeFloat trade "price" None;
      amount ← safeFloat trade "size" None;
      let side := safeString trade "side" in
      let timestamp := parse8601 (of_optstr (safeString trade "executedAt")) in
      let orderId := safeString trade "orderId" in
      let marketId := safeString trade "marketId" in
      let market := safeValue (markets_by_id this) (key_of marketId) in
      maker ← match trade with
              | VUndef | VNull =>
                  Throw TypeError "Cannot read properties of undefined"
              | _ => Ret (prop trade "maker")
              end;
      let takerOrMaker := if truthy maker then "maker" else "taker" in
      tail (of_optstr id) (VStr takerOrMaker) (of_optnum price)
        (of_optnum amount) (of_optstr side) timestamp (of_optstr orderId)
        market
  end.

(** *** [parseOrder], lines 437-458 *)

Record order_t : Type := {
  o_id : option string;
  o_info : value;
  o_symbol : value;
  o_datetime : option string;
  o_timestamp : option float;
  o_side : option string;
  o_amount : option float;
  o_filled : option float;
  o_remaining : float;
  o_price : option float;
}.

Definition parseOrder (order market : value) : result order_t :=
  symbol ← market_symbol market;
  let id := safeString order "id" in
  let datetime := safeString order "placedAt" in
  amount ← safeFloat order "size" None;
  filled ← safeFloat order "sizeFilled" None;
  let timestamp := parse8601 (of_optstr datetime) in
  let side := safeString order "side" in
  let remaining := js_sub amount filled in
  price ← safeFloat order "price" None;
  Ret {| o_id := id;
         o_info := order;
         o_symbol := symbol;
         o_datetime := datetime;
         o_timestamp := timestamp;
         o_side := side;
         o_amount := amount;
         o_filled := filled;
         o_remaining := remaining;
         o_price := price |}.

(** *** [setSandboxMode], lines 464-473 *)

Definition get_named (v : venues_t) (k : string) : value :=
  default VUndef (named v !! k).

Definition set_named (v : venues_t) (k : string) (x : value) : venues_t :=
  {| elements := elements v; named := <[k := x]> (named v) |}.

Definition with_venues (this : exchange) (v : venues_t) : exchange :=
  {| id := id this; version := version this; urls_api := urls_api this;
     apiKey := apiKey this; secret := secret this; password := password this;
     options := {| accountId := accountId (options this);
                   venueId := venueId (options this);
                   venues := v;
                   paymentMethods := paymentMethods (options this) |};
     exceptions := exceptions this; markets_by_id := markets_by_id this |}.

Definition setSandboxMode (this : exchange) (enabled : bool) : exchange :=
  let v := venues (options this) in
  if enabled then
    let v := set_named v "backup" (get_named v "main") in
    let v := set_named v "main" (get_named v "sandbox") in
    with_venues this v
  else if bool_decide (is_Some (named v !! "backup")) then
    with_venues this (set_named v "main" (get_named v "backup"))
  else this.

(** The request every venue-scoped call starts from, as in lines 139-141,
    204-206 and 476-479: the venue is read from [options['venueId']]. *)
Definition venue_request (this : exchange) : obj :=
  {[ "venueId" := venueId (options this) ]}.

(** *** [fetchBalance], lines 475-497

    [balances] is [response['result']['balances']], the decoded array the
    private call returned. *)

(** The loop body, lines 487-494: the key and the account stored under it. *)
Definition fetchBalance_entry (entry : value)
  : result (option string * account_t) :=
  asset ← match prop entry "assetId" with
          | VStr s => Ret (leading_segment s)
          | _ => Throw TypeError "Cannot read properties of undefined"
          end;
  let code := commonCurrencyCode (Some asset) in
  total ← safeFloat entry "amount" (Some 0%float);
  available ← safeFloat entry "availableForTrade" (Some 0%float);
  Ret (code, {| total := total; available := available;
                free := js_sub total available |}).

Fixpoint fetchBalance_loop (balances : list value) (res : gmap string account_t)
  : result (gmap string account_t) :=
  match balances with
  | [] => Ret res
  | entry :: balances =>
      '(code, account) ← fetchBalance_entry entry;
      fetchBalance_loop balances (<[key_of code := account]> res)
  end.

Definition fetchBalance (this : exchange) (params : obj) (balances : list value)
  : result value :=
  let request :=
    extend {[ "venueId" := venueId (options this);
              "accountId" := accountId (options this) ]} params in
  if negb (truthy (prop (VObj request) "accountId")) then
    Throw ArgumentsRequired
      (id this ++ " fetchBalance requires either the 'accountId' extra parameter or exchange.options['accountId'] = 'YOUR_ACCOUNT_ID'.")
  else
    res ← fetchBalance_loop balances ∅;
    Ret (parseBalance res).

(** *** [handleErrors], lines 592-614

    [errorCode in this.exceptions] is membership in the table of
    [describe ()]; properties an object inherits are outside this model. *)
Definition handleErrors (this : exchange) (body : string) (response : value)
  : result unit :=
  if negb (truthy response) then Ret tt
  else
    let errorCode := safeString response "errorCode" in
    match exceptions this !! key_of errorCode with
    | Some Exception => Throw Exception (id this ++ " " ++ body)
    | None =>
        let success := safeValue response "success" in
        if negb (truthy success) then
          Throw ExchangeError (id this ++ " " ++ body)
        else Ret tt
    end.

(** *** [nonce] and [sign], lines 460-462 and 616-644

    [now] is what [this.seconds ()] reads from the clock. *)

Definition nonce (now : N) : N := now.

Record request_t : Type := {
  url : string;
  method : string;
  body : option string;
  headers : value;
}.

Definition sign (this : exchange) (now : N) (path api method : string)
    (params : obj) (headers : value) (body : option string) : result request_t :=
  let request := "/" ++ version this ++ "/" ++ implodeParams path params in
  let query := omit params (extractParams path) in
  let url := default "undefined" (urls_api this !! api) ++ request in
  let '(url, body) :=
    if String.eqb method "GET" then
      if negb (Nat.eqb (size query) 0) then (url ++ "?" ++ urlencode query, body)
      else (url, Some (json query))
    else (url, body) in
  if String.eqb api "private" then
    _ ← checkRequiredCredentials this;
    let timestamp := pretty (nonce now) in
    let payload := timestamp ++ method ++ request in
    let payload :=
      match body with
      | Some b => payload ++ b
      | None => payload
      end in
    let secret := base64ToBinary (secret this) in
    Ret {| url := url; method := method; body := body;
           headers := VObj
             {[ "SH-CRED-ID" := of_optstr (apiKey this);
                "SH-CRED-SIG" :=
                  VStr (hmac (encode payload) secret "sha256" "base64");
                "SH-CRED-TIME" := VStr timestamp;
                "SH-CRED-PASS" := of_optstr (password this);
                "Content-Type" := VStr "application/json" ]} |}
  else
    Ret {| url := url; method := method; body := body; headers := headers |}.

End Stronghold.

(** ** A model of the inherited accessors

    The superclass is not among the sources.  The instances below give its
    accessors, its date functions and its currency canonicalization the
    behaviour the specification describes for them; they serve as the concrete
    base the examples run on. *)

Definition float_of_Z (z : Z) : float :=
  SF2Prim (binary_normalize prec emax z 0 false).

(** The integer part of a finite number. *)
Definition Z_of_float (x : float) : option Z :=
  match Prim2SF x with
  | S754_zero _ => Some 0%Z
  | S754_finite s m e => Some (cond_Zopp s (Z.shiftl (Zpos m) e))
  | _ => None
  end.

(** [parseInt (s, 10)]. *)
Definition parse_int (s : string) : float :=
  let '(neg, r) :=
    match skip_ws s with
    | String "-" r => (true, r)
    | String "+" r => (false, r)
    | r => (false, r)
    end in
  let '(m, cnt, _) := read_digits r 0%N 0%Z in
  if (cnt =? 0)%Z then nan else float_of_decimal neg m 0.

(** Modelled from the spec: [safeString] of base/Exchange.js, which is not
    among the sources.  The envelope and the raw records carry optional
    string fields (section 6: [errorCode?: string]); a field that is absent,
    or is no string, reads as [undefined]. *)
Definition model_safeString (o : value) (k : string) : option string :=
  match prop o k with
  | VStr s => Some s
  | _ => None
  end.

(** Modelled from the spec: [safeValue] of base/Exchange.js, which is not
    among the sources: the field as it is in the decoded payload (sections
    4.2 and 4.5: the success flag, the market looked up by its id). *)
Definition model_safeValue (o : value) (k : string) : value := prop o k.

(** Modelled from the spec: [safeFloat] of base/Exchange.js, which is not
    among the sources.  An absent field gives the default (section 4.7:
    "default 0 if absent"); a field that is present and cannot be read as a
    number is a ParseFailure, "never silently defaulted to zero/undefined"
    (sections 4.6 and 7). *)
Definition model_safeFloat (o : value) (k : string) (d : option float)
  : result (option float) :=
  match prop o k with
  | VUndef | VNull => Ret d
  | VNum x =>
      if isFinite x then Ret (Some x)
      else Throw ParseFailure ("not a number: " ++ k)
  | VStr s =>
      let x := parse_decimal s in
      if isFinite x then Ret (Some x)
      else Throw ParseFailure ("not a number: " ++ k)
  | _ => Throw ParseFailure ("not a number: " ++ k)
  end.

(** Modelled from the spec: [safeInteger] of base/Exchange.js, which is not
    among the sources.  Precision values are "integers or absent" (section
    3); a field that is present and is no number is a ParseFailure (section
    7). *)
Definition model_safeInteger (o : value) (k : string) : result (option float) :=
  match prop o k with
  | VUndef | VNull => Ret None
  | VNum x =>
      match Z_of_float x with
      | Some z => Ret (Some (float_of_Z z))
      | None => Throw ParseFailure ("not an integer: " ++ k)
      end
  | VStr s =>
      let x := parse_int s in
      if isFinite x then Ret (Some x)
      else Throw ParseFailure ("not an integer: " ++ k)
  | _ => Throw ParseFailure ("not an integer: " ++ k)
  end.

Definition model_accessors : Accessors := {|
  safeString := model_safeString;
  safeValue := model_safeValue;
  safeFloat := model_safeFloat;
  safeInteger := model_safeInteger;
|}.

(** Modelled from the spec: [commonCurrencyCode] of base/Exchange.js, which is
    not among the sources: the "currency-code canonicalization function" of
    section 6.  The codes in the specification's examples (SHX, USD, XLM) are
    canonical already, and the model leaves every code as it is. *)
Definition model_currencies : Currencies := {|
  commonCurrencyCode := fun c => c;
|}.

(** *** Dates *)

Fixpoint read_n (n : nat) (s : string) (acc : Z) : option (Z * string) :=
  match n with
  | O => Some (acc, s)
  | S n =>
      match s with
      | String c r => d ← digit_of c; read_n n r (acc * 10 + Z.of_N d)%Z
      | EmptyString => None
      end
  end.

Definition expect (c : ascii) (s : string) : option string :=
  match s with
  | String c' r => if Ascii.eqb c c' then Some r else None
  | EmptyString => None
  end.

(** Days from 1970-01-01 to the given proleptic Gregorian date. *)
Definition days_from_civil (y m d : Z) : Z :=
  let y := if (m <=? 2)%Z then (y - 1)%Z else y in
  let era := (y / 400)%Z in
  let yoe := (y - era * 400)%Z in
  let mp := ((m + 9) mod 12)%Z in
  let doy := ((153 * mp + 2) / 5 + d - 1)%Z in
  let doe := (yoe * 365 + yoe / 4 - yoe / 100 + doy)%Z in
  (era * 146097 + doe - 719468)%Z.

Definition civil_from_days (z : Z) : Z * Z * Z :=
  let z := (z + 719468)%Z in
  let era := (z / 146097)%Z in
  let doe := (z - era * 146097)%Z in
  let yoe := ((doe - doe / 1460 + doe / 36524 - doe / 146096) / 365)%Z in
  let doy := (doe - (365 * yoe + yoe / 4 - yoe / 100))%Z in
  let mp := ((5 * doy + 2) / 153)%Z in
  let d := (doy - (153 * mp + 2) / 5 + 1)%Z in
  let m := if (mp <? 10)%Z then (mp + 3)%Z else (mp - 9)%Z in
  let y := (yoe + era * 400)%Z in
  (if (m <=? 2)%Z then (y + 1)%Z else y, m, d).

(** Milliseconds of a fraction given as [n] written with [cnt] digits. *)
Definition fraction_ms (n : N) (cnt : Z) : Z :=
  if (cnt <=? 3)%Z then (Z.of_N n * 10 ^ (3 - cnt))%Z
  else (Z.of_N n / 10 ^ (cnt - 3))%Z.

Definition parse_iso (s : string) : option Z :=
  '(y, s) ← read_n 4 s 0%Z;
  s ← expect "-" s;
  '(mo, s) ← read_n 2 s 0%Z;
  s ← expect "-" s;
  '(d, s) ← read_n 2 s 0%Z;
  s ← expect "T" s;
  '(hh, s) ← read_n 2 s 0%Z;
  s ← expect ":" s;
  '(mi, s) ← read_n 2 s 0%Z;
  s ← expect ":" s;
  '(ss, s) ← read_n 2 s 0%Z;
  '(ms, s) ← match s with
             | String "." r =>
                 let '(n, cnt, r) := read_digits r 0%N 0%Z in
                 if (cnt =? 0)%Z then None else Some (fraction_ms n cnt, r)
             | _ => Some (0%Z, s)
             end;
  if String.eqb s "Z"
     && (1 <=? mo)%Z && (mo <=? 12)%Z && (1 <=? d)%Z && (d <=? 31)%Z
     && (hh <=? 23)%Z && (mi <=? 59)%Z && (ss <=? 59)%Z
  then Some ((((days_from_civil y mo d * 24 + hh) * 60 + mi) * 60 + ss) * 1000
             + ms)%Z
  else None.

(** [n] in decimal, padded with zeros to [w] digits. *)
Definition pad (w : nat) (n : Z) : string :=
  let s := pretty (Z.to_N n) in
  String.concat "" (replicate (w - String.length s) "0") ++ s.

Definition print_iso (ms : Z) : option string :=
  let days := (ms / 86400000)%Z in
  let rest := (ms mod 86400000)%Z in
  let '(y, m, d) := civil_from_days days in
  if (0 <=? y)%Z && (y <=? 9999)%Z then
    Some (pad 4 y ++ "-" ++ pad 2 m ++ "-" ++ pad 2 d ++ "T"
          ++ pad 2 (rest / 3600000) ++ ":" ++ pad 2 (rest / 60000 mod 60) ++ ":"
          ++ pad 2 (rest / 1000 mod 60) ++ "." ++ pad 3 (rest mod 1000) ++ "Z")
  else None.

(** Modelled from the spec: [parse8601] and [iso8601] of base/Exchange.js,
    which is not among the sources.  Timestamps are ISO-8601 strings in UTC,
    with or without fractional seconds (sections 4.4 and 6); they parse to
    milliseconds since the epoch, and anything else reads as [undefined]. *)
Definition model_dates : Dates := {|
  parse8601 := fun v =>
    match v with
    | VStr s => float_of_Z <$> parse_iso s
    | _ => None
    end;
  iso8601 := fun t => x ← t; ms ← Z_of_float x; print_iso ms;
|}.

(** A field that is present and is no finite number. *)
Definition unparsable (v : value) : bool :=
  match v with
  | VUndef | VNull => false
  | VNum x => negb (isFinite x)
  | VStr s => negb (isFinite (parse_decimal s))
  | _ => true
  end.

(** ** The signer, in the words of the specification *)

Section Signer.

Context {base : Helpers}.

(** What lines 620-626 leave in [body]. *)
Definition request_body (method : string) (query : obj) (body : option string)
  : option string :=
  if String.eqb method "GET" then
    if Nat.eqb (size query) 0 then Some (json query) else body
  else body.

(** What lines 619-626 leave in [url]. *)
Definition request_url (this : exchange) (api method request : string)
    (query : obj) : string :=
  let url := default "undefined" (urls_api this !! api) ++ request in
  if String.eqb method "GET" && negb (Nat.eqb (size query) 0)
  then url ++ "?" ++ urlencode query
  else url.

(** Section 4.1: "the concatenation, in this exact order, of the decimal
    string of the nonce, the HTTP method name, the request path, and, only if
    a body is present, the raw serialized body". *)
Definition signing_payload (nonce : N) (method path : string)
    (body : option string) : string :=
  String.concat ""
    ([pretty nonce; method; path]
     ++ match body with Some b => [b] | None => [] end).

(** The number a string of decimal digits denotes. *)
Definition decimal_value (s : string) : option N :=
  let '(n, cnt, rest) := read_digits s 0%N 0%Z in
  if (0 <? cnt)%Z && String.eqb rest "" then Some n else None.

(** Section 4.1: "GET requests carry no body if the query set is non-empty;
    non-GET or empty-query GET requests carry the query as a JSON body". *)
Definition spec_body (method : string) (query : obj) : option string :=
  if String.eqb method "GET" && negb (Nat.eqb (size query) 0) then None
  else Some (json query).

End Signer.

(** ** More of [stronghold.js] *)

#[global] Instance error_eq_dec : EqDecision error.
Proof. solve_decision. Defined.

(** *** [fetchMarkets], lines 138-201

    [data] is [response['result']], the decoded array of markets. *)

Record range_t : Type := {
  r_min : value;
  r_max : value;
}.

Record limits_t : Type := {
  l_amount : range_t;
  l_price : range_t;
  l_cost : range_t;
}.

Record precision_t : Type := {
  p_price : option float;
  p_amount : option float;
}.

Record market_t : Type := {
  m_symbol : string;
  m_id : value;
  m_base : option string;
  m_quote : option string;
  m_baseId : string;
  m_quoteId : string;
  m_limits : limits_t;
  m_precision : precision_t;
  m_info : value;
}.

Section Markets.

Context {acc : Accessors} {cur : Currencies}.

(** The loop body, lines 161-198.  [baseId.split] and [quoteId.split] need
    strings; [base + '/' + quote] prints an [undefined] code as a word. *)
Definition fetchMarkets_entry (entry : value) : result market_t :=
  let marketId := prop entry "id" in
  match prop entry "baseAssetId", prop entry "counterAssetId" with
  | VStr baseId, VStr quoteId =>
      let baseAssetId := leading_segment baseId in
      let quoteAssetId := leading_segment quoteId in
      let base := commonCurrencyCode (Some baseAssetId) in
      let quote := commonCurrencyCode (Some quoteAssetId) in
      let symbol := key_of base ++ "/" ++ key_of quote in
      amount_min ← safeFloat entry "minimumOrderSize" None;
      price ← safeInteger entry "displayDecimalsPrice";
      amount ← safeInteger entry "displayDecimalsAmount";
      Ret {| m_symbol := symbol;
             m_id := marketId;
             m_base := base;
             m_quote := quote;
             m_baseId := baseId;
             m_quoteId := quoteId;
             m_limits :=
               {| l_amount := {| r_min := of_optnum amount_min;
                                 r_max := VUndef |};
                  l_price := {| r_min := VUndef; r_max := VUndef |};
                  l_cost := {| r_min := VUndef; r_max := VUndef |} |};
             m_precision := {| p_price := price; p_amount := amount |};
             m_info := entry |}
  | _, _ => Throw TypeError "Cannot read properties of undefined"
  end.

Fixpoint fetchMarkets_loop (data : list value) (res : gmap string market_t)
  : result (gmap string market_t) :=
  match data with
  | [] => Ret res
  | entry :: data =>
      m ← fetchMarkets_entry entry;
      fetchMarkets_loop data (<[m_symbol m := m]> res)
  end.

Definition fetchMarkets (data : list value) : result (gmap string market_t) :=
  fetchMarkets_loop data ∅.

End Markets.

(** *** [createDepositAddress], lines 512-526 *)

(** The inherited methods this call uses besides those of [Helpers]. *)
Class Client : Type := {
  currencyId : string -> value;
}.

Section Deposit.

Context {acc : Accessors} {base : Helpers} {client : Client}.

(** Lines 514-526: the request the private call is made with. *)
Definition createDepositAddress_request (this : exchange) (code : string)
    (params : obj) : result obj :=
  let paymentMethod :=
    safeString (VObj (VStr <$> paymentMethods (options this))) code in
  match paymentMethod with
  | None =>
      Throw NotSupported
        (id this ++ " createDepositAddress requires code to be BTC, ETH, or XLM")
  | Some paymentMethod =>
      let request :=
        extend {[ "venueId" := venueId (options this);
                  "accountId" := accountId (options this);
                  "assetId" := currencyId code;
                  "paymentMethod" := VStr paymentMethod ]} params in
      if negb (truthy (prop (VObj request) "accountId")) then
        Throw ArgumentsRequired
          (id this ++ " createDepositAddress requires either the 'accountId' extra parameter or exchange.options['accountId'] = 'YOUR_ACCOUNT_ID'.")
      else Ret request
  end.

End Deposit.

(** ** A base to run examples on

    The theorems are parametric in [Helpers]; this instance gives them
    something concrete to run on.  [extend] merges two objects, the later one
    winning; [omit] drops the listed keys; the credential check passes when
    key, secret and password are all set.  The serializers and the MAC are
    stand-ins that only tag their arguments. *)

Definition sample_helpers : Helpers := {|
  extend := fun a b => b ∪ a;
  implodeParams := fun path _ => path;
  extractParams := fun _ => [];
  omit := fun o ks => filter (fun kv => kv.1 ∉ ks) o;
  urlencode := fun o => "query:" ++ pretty (size o);
  json := fun o => "json:" ++ pretty (size o);
  encode := fun s => s;
  base64ToBinary := fun s => default "" s;
  hmac := fun payload key algo enc =>
    enc ++ "(" ++ algo ++ "(" ++ key ++ "," ++ payload ++ "))";
  checkRequiredCredentials := fun this =>
    match apiKey this, secret this, password this with
    | Some _, Some _, Some _ => Ret tt
    | _, _, _ => Throw AuthenticationError (id this ++ " requires credentials")
    end;
  parseBalance := fun res => VObj ((fun a => VNum (free a)) <$> res);
|}.

Definition sample_client : Client := {|
  currencyId := fun code => VStr code;
|}.

(** * Properties *)

Example parse_decimal_examples :
  (parse_decimal "0.03177000", parse_decimal "0.0643501",
   parse_decimal "sell", parse_decimal "  -12.5e-1x", parse_decimal ".5",
   parse_decimal "9007199254740993", parse_decimal "1.8e308",
   parse_decimal "2e-324")
  = (0.03177, 0.0643501, nan, -1.25, 0.5, 9007199254740992, infinity, 0)%float.
Proof. vm_compute. reflexivity. Qed.

Example parse8601_example :
  parse8601 (Dates := model_dates) (VStr "2019-01-27T23:02:04Z")
  = Some 1548630124000%float
  /\ iso8601 (Dates := model_dates) (Some 1548630124000%float)
     = Some "2019-01-27T23:02:04.000Z".
Proof. vm_compute. split; reflexivity. Qed.

(** ** Facts about binary64 subtraction *)

Lemma Prim2SF_zero : Prim2SF 0%float = S754_zero false.
Proof. vm_compute. reflexivity. Qed.

(** What a finite number looks like in the specification format. *)
Lemma isFinite_spec (x : float) :
  isFinite x = true ->
  (exists s, Prim2SF x = S754_zero s) \/
  (exists s m e, Prim2SF x = S754_finite s m e).
Proof.
  unfold isFinite. intros Hx.
  apply negb_true_iff, orb_false_iff in Hx as [Hn Hi].
  unfold Prim2SF. rewrite Hn, Hi.
  destruct (is_zero x); [left; eauto|].
  destruct (Z.frexp x) as [r ex].
  destruct (shr_fexp prec emax _ _ _) as [mrs e'].
  destruct (shr_m mrs); eauto 6.
Qed.

Lemma SFcompare_finite_refl (s : bool) (m : positive) (e : Z) :
  SFcompare (S754_finite s m e) (S754_finite s m e) = Some Eq.
Proof.
  simpl. rewrite Z.compare_refl.
  assert (Pos.compare_cont Eq m m = Eq) as -> by apply Pos.compare_refl.
  destruct s; reflexivity.
Qed.

Lemma SFcompare_finite_eq (s1 s2 : bool) (m1 m2 : positive) (e1 e2 : Z) :
  SFcompare (S754_finite s1 m1 e1) (S754_finite s2 m2 e2) = Some Eq ->
  s1 = s2 /\ m1 = m2 /\ e1 = e2.
Proof.
  simpl. destruct s1, s2; try discriminate;
    destruct (Z.compare_spec e1 e2) as [-> | |]; try discriminate;
    intros Hc; repeat split; apply Pos.compare_eq.
  - destruct (Pos.compare_cont Eq m1 m2) eqn:E; try discriminate; exact E.
  - destruct (Pos.compare_cont Eq m1 m2) eqn:E; try discriminate; exact E.
Qed.

(** [x - 0] is [x], for every [x], NaN and the infinities included. *)
Lemma float_sub_0_r (x : float) : (x - 0)%float = x.
Proof.
  apply Prim2SF_inj. rewrite sub_spec, Prim2SF_zero.
  destruct (Prim2SF x) as [[]|[]| |]; reflexivity.
Qed.

(** Subtracting a zero of either sign leaves a number equal to itself under
    [==]. *)
Lemma float_sub_zero_eqb (x y : float) :
  (y =? 0)%float = true -> is_nan x = false ->
  (x - y =? x)%float = true.
Proof.
  rewrite !FloatAxioms.eqb_spec, sub_spec, Prim2SF_zero. intros Hy Hx.
  assert (Prim2SF x <> S754_nan) as Hx'.
  { unfold Prim2SF. rewrite Hx. destruct (is_zero x); [discriminate|].
    destruct (is_infinity x); [discriminate|].
    destruct (Z.frexp x). destruct (shr_fexp prec emax _ _ _) as [mrs e'].
    destruct (shr_m mrs); discriminate. }
  destruct (Prim2SF y) as [sy|[]| |[] ? ?]; try discriminate.
  destruct (Prim2SF x) as [[]|[]| |s m e]; try congruence;
    destruct sy; try reflexivity;
    unfold SF64sub, SFsub, SFeqb; rewrite SFcompare_finite_refl; reflexivity.
Qed.

(** A finite number minus a number equal to it is zero. *)
Lemma float_sub_eqb_diag (x y : float) :
  isFinite x = true -> (y =? x)%float = true -> (x - y =? 0)%float = true.
Proof.
  intros Hx. rewrite !FloatAxioms.eqb_spec, sub_spec, Prim2SF_zero.
  destruct (isFinite_spec x Hx) as [[s ->]|(s & m & e & ->)].
  - destruct (Prim2SF y) as [sy|[]| |[] ? ?]; try discriminate.
    intros _. destruct s, sy; reflexivity.
  - destruct (Prim2SF y) as [sy|[]| |sy my ey] eqn:Ey; try discriminate.
    + destruct s; discriminate.
    + unfold SFeqb.
      destruct (SFcompare (S754_finite sy my ey) (S754_finite s m e))
        as [[]|] eqn:Ec; try discriminate.
      apply SFcompare_finite_eq in Ec as (-> & -> & ->). intros _.
      unfold SF64sub, SFsub. rewrite Z.sub_diag. reflexivity.
Qed.

Lemma float_sub_diag (x : float) : isFinite x = true -> (x - x)%float = 0%float.
Proof.
  intros Hx. apply Prim2SF_inj. rewrite sub_spec, Prim2SF_zero.
  destruct (isFinite_spec x Hx) as [[s ->]|(s & m & e & ->)].
  - destruct s; reflexivity.
  - unfold SF64sub, SFsub. rewrite Z.sub_diag. reflexivity.
Qed.

(** ** The order normalizer *)

(** Splits a hypothesis [m ≫= k = Ret b] on what [m] is. *)
Ltac bind_inv H x E :=
  match type of H with
  | ?m ≫= _ = Ret _ =>
      destruct m as [x|? ?] eqn:E; [simpl in H | discriminate H]
  end.

(** C6: every order [parseOrder] returns has [remaining] equal to [amount -
    filled], the subtraction of the two fields as the record holds them (each
    what [safeFloat] read from [size] and [sizeFilled]; an absent one counts
    as NaN).  When filled is zero, remaining equals amount; when filled
    equals a finite amount, remaining is zero. *)
Theorem parseOrder_remaining {acc : Accessors} {dates : Dates}
    (order market : value) (r : order_t) :
  parseOrder order market = Ret r ->
  o_remaining r = js_sub (o_amount r) (o_filled r)
  /\ safeFloat order "size" None = Ret (o_amount r)
  /\ safeFloat order "sizeFilled" None = Ret (o_filled r)
  /\ (forall a f, o_amount r = Some a -> o_filled r = Some f ->
        o_remaining r = (a - f)%float
        /\ (f = 0%float -> o_remaining r = a)
        /\ (f = a -> isFinite a = true -> o_remaining r = 0%float)
        /\ ((f =? 0)%float = true -> is_nan a = false ->
              (o_remaining r =? a)%float = true)
        /\ ((f =? a)%float = true -> isFinite a = true ->
              (o_remaining r =? 0)%float = true)).
Proof.
  unfold parseOrder. intros Hr.
  bind_inv Hr symbol Es. bind_inv Hr amount Ea. bind_inv Hr filled Ef.
  bind_inv Hr price Ep. injection Hr as <-. simpl.
  do 3 (split; [reflexivity|]).
  intros a f -> ->. simpl. repeat split.
  - intros ->. apply float_sub_0_r.
  - intros -> Ha. apply float_sub_diag, Ha.
  - intros Hf Ha. apply float_sub_zero_eqb; assumption.
  - intros Hf Ha. apply float_sub_eqb_diag; assumption.
Qed.

Lemma parseOrder_remaining_witness :
  let order :=
    VObj {[ "id" := VStr "a38d8bcb"; "placedAt" := VStr "2019-02-01T18:44:21Z";
            "side" := VStr "sell"; "size" := VStr "1.0000000";
            "sizeFilled" := VStr "0.2500000"; "price" := VStr "0.10440600" ]} in
  let r :=
    {| o_id := Some "a38d8bcb"; o_info := order; o_symbol := VUndef;
       o_datetime := Some "2019-02-01T18:44:21Z";
       o_timestamp := Some 1549046661000%float; o_side := Some "sell";
       o_amount := Some 1%float; o_filled := Some 0.25%float;
       o_remaining := 0.75%float; o_price := Some 0.104406%float |} in
  parseOrder (acc := model_accessors) (dates := model_dates) order VUndef = Ret r
  /\ o_remaining r = js_sub (o_amount r) (o_filled r).
Proof.
  intros order r.
  assert (parseOrder (acc := model_accessors) (dates := model_dates) order VUndef
          = Ret r) as Hr.
  { vm_compute. reflexivity. }
  split; [exact Hr|].
  exact (proj1 (parseOrder_remaining (acc := model_accessors)
                  (dates := model_dates) order VUndef r Hr)).
Defined.

Lemma model_safeFloat_unparsable (o : value) (k : string) (d : option float) :
  unparsable (prop o k) = true ->
  model_safeFloat o k d = Throw ParseFailure ("not a number: " ++ k).
Proof.
  unfold model_safeFloat, unparsable.
  destruct (prop o k) as [| | |x|s| |]; try discriminate; try reflexivity;
    intros Hx; apply negb_true_iff in Hx; rewrite Hx; reflexivity.
Qed.

Lemma model_safeFloat_cases (o : value) (k : string) (d : option float) :
  model_safeFloat o k d = Throw ParseFailure ("not a number: " ++ k)
  \/ exists x, model_safeFloat o k d = Ret x.
Proof.
  unfold model_safeFloat.
  destruct (prop o k) as [| | |x|s| |]; eauto;
    match goal with |- context [isFinite ?y] => destruct (isFinite y) end;
    eauto.
Qed.



(** ** The balance normalizer *)

(** What a returned entry says about its input. *)
Lemma fetchBalance_entry_inv {acc : Accessors} {cur : Currencies}
    (entry : value) (code : option string) (account : account_t) :
  fetchBalance_entry entry = Ret (code, account) ->
  exists assetId,
    prop entry "assetId" = VStr assetId
    /\ code = commonCurrencyCode (Some (leading_segment assetId))
    /\ safeFloat entry "amount" (Some 0%float) = Ret (total account)
    /\ safeFloat entry "availableForTrade" (Some 0%float)
       = Ret (available account)
    /\ free account = js_sub (total account) (available account).
Proof.
  unfold fetchBalance_entry. intros Hr.
  destruct (prop entry "assetId") as [| | | |assetId| |]; try discriminate Hr.
  simpl in Hr. bind_inv Hr t Et. bind_inv Hr v Ev.
  injection Hr as <- <-. exists assetId. repeat split; reflexivity.
Qed.

(** The loop keeps the relation: every account of the result has [free]
    equal to [total - available]. *)
Lemma fetchBalance_loop_free {acc : Accessors} {cur : Currencies}
    (balances : list value) (res res' : gmap string account_t) :
  map_Forall (fun _ a => free a = js_sub (total a) (available a)) res ->
  fetchBalance_loop balances res = Ret res' ->
  map_Forall (fun _ a => free a = js_sub (total a) (available a)) res'.
Proof.
  revert res. induction balances as [|entry balances IH]; intros res Hres Hr.
  - injection Hr as <-. exact Hres.
  - cbn [fetchBalance_loop] in Hr.
    destruct (fetchBalance_entry entry) as [[code account]|] eqn:Ee;
      [|discriminate Hr].
    simpl in Hr. eapply IH; [|exact Hr].
    apply map_Forall_insert_2; [|exact Hres].
    destruct (fetchBalance_entry_inv entry code account Ee)
      as (_ & _ & _ & _ & _ & Hfree).
    exact Hfree.
Qed.


Lemma model_safeFloat_default (o : value) (k : string) (d : option float) :
  prop o k = VUndef -> model_safeFloat o k d = Ret d.
Proof. unfold model_safeFloat. intros ->. reflexivity. Qed.


Example fetchBalance_entry_reported :
  fetchBalance_entry (acc := model_accessors) (cur := model_currencies)
    (VObj {[ "assetId" := VStr "USD/stronghold.co"; "amount" := VStr "10.50";
             "availableForTrade" := VStr "4.25" ]})
  = Ret (Some "USD", {| total := Some 10.5%float; available := Some 4.25%float;
                        free := 6.25%float |}).
Proof. vm_compute. reflexivity. Qed.

(** ** The currency normalizer *)

(** What a returned currency says about its entry. *)
Lemma fetchCurrencies_entry_inv {acc : Accessors} {cur : Currencies}
    (entry : value) (c : currency) :
  fetchCurrencies_entry entry = Ret c ->
  c_code c = commonCurrencyCode (safeString entry "code")
  /\ c_id c = safeString entry "code"
  /\ safeInteger entry "displayDecimalsFull" = Ret (c_precision c)
  /\ c_info c = entry.
Proof.
  unfold fetchCurrencies_entry. intros Hr. bind_inv Hr precision Ep.
  injection Hr as <-. repeat split; reflexivity.
Qed.

(** Every currency of the result is stored under its code and has that code
    from the [code] field of some entry. *)
Lemma fetchCurrencies_loop_code {acc : Accessors} {cur : Currencies}
    (data : list value) (res res' : gmap string currency) :
  let from_code (k : string) (c : currency) :=
    k = key_of (c_code c)
    /\ exists entry, c_info c = entry
         /\ c_code c = commonCurrencyCode (safeString entry "code") in
  map_Forall from_code res ->
  fetchCurrencies_loop data res = Ret res' ->
  map_Forall from_code res'.
Proof.
  intros from_code. revert res.
  induction data as [|entry data IH]; intros res Hres Hr.
  - injection Hr as <-. exact Hres.
  - cbn [fetchCurrencies_loop] in Hr.
    destruct (fetchCurrencies_entry entry) as [c|] eqn:Ee; [|discriminate Hr].
    simpl in Hr. eapply IH; [|exact Hr].
    apply map_Forall_insert_2; [|exact Hres].
    destruct (fetchCurrencies_entry_inv entry c Ee) as (Hc & _ & _ & Hi).
    split; [reflexivity|]. exists entry. split; assumption.
Qed.




(** ** The error classifier *)


(** ** The trade normalizer *)

(** C3: [parseTrade] on the public tuple yields price 0.03177, amount
    0.0643501, the timestamp parsed from the fourth element, and id, order
    and takerOrMaker unset; its side is [parseFloat ('sell')], the number
    NaN, and not the string ['sell']. *)
Theorem parseTrade_tuple {acc : Accessors} {dates : Dates} (this : exchange) :
  let trade :=
    VArr [VStr "0.03177000"; VStr "0.0643501"; VStr "sell";
          VStr "2019-01-27T23:02:04Z"] in
  let timestamp := parse8601 (VStr "2019-01-27T23:02:04Z") in
  parseTrade this trade VUndef
  = Ret {| t_id := VUndef;
           t_info := trade;
           t_timestamp := of_optnum timestamp;
           t_datetime := of_optstr (iso8601 timestamp);
           t_symbol := VUndef;
           t_type := VUndef;
           t_order := VUndef;
           t_side := VNum nan;
           t_price := VNum 0.03177%float;
           t_amount := VNum 0.0643501%float;
           t_cost := VUndef;
           t_takerOrMaker := VUndef;
           t_fee := {| fee_cost := VUndef; fee_currency := VUndef;
                       fee_rate := VUndef |} |}
  /\ VNum nan <> VStr "sell".
Proof.
  intros trade timestamp. split; [|discriminate].
  vm_compute. reflexivity.
Qed.

(** The private shape of the same trade keeps its side. *)
Example parseTrade_object_side :
  t_side <$>
    match
      parseTrade (acc := model_accessors) (dates := model_dates) describe
        (VObj {[ "id" := VStr "t1"; "orderId" := VStr "o1";
                 "marketId" := VStr "XLMUSD"; "side" := VStr "sell";
                 "size" := VStr "1.0000000"; "price" := VStr "0.10440600";
                 "maker" := VBool false;
                 "executedAt" := VStr "2019-02-01T18:44:21Z" ]}) VUndef
    with
    | Ret t => Some t
    | Throw _ _ => None
    end
  = Some (VStr "sell").
Proof. vm_compute. reflexivity. Qed.

(** ** The sandbox toggle *)

Lemma setSandboxMode_venueId (this : exchange) (enabled : bool) :
  venueId (options (setSandboxMode this enabled)) = venueId (options this).
Proof.
  unfold setSandboxMode. destruct enabled; [reflexivity|].
  case_bool_decide; reflexivity.
Qed.

(** C9: what [setSandboxMode (true)] does to the exchange as [describe ()]
    configures it.  The venue that requests read stays ['trade-public']: the
    toggle moves the properties [main], [sandbox] and [backup] of the
    [venues] array, none of which [describe ()] defines, so [backup] and
    [main] both become [undefined], and no call changes
    [options['venueId']]. *)
Theorem setSandboxMode_leaves_venue :
  let on := setSandboxMode describe true in
  venue_request on = {[ "venueId" := VStr "trade-public" ]}
  /\ venueId (options on) <> VStr "sandbox-public"
  /\ named (venues (options on)) !! "backup" = Some VUndef
  /\ named (venues (options on)) !! "main" = Some VUndef
  /\ elements (venues (options on))
     = [VStr "trade-public"; VStr "sandbox-public"]
  /\ venue_request (setSandboxMode on false) = venue_request describe
  /\ (forall this enabled,
        venue_request (setSandboxMode this enabled) = venue_request this).
Proof.
  intros on.
  split; [vm_compute; reflexivity|].
  split; [vm_compute; intros [=]|].
  do 4 (split; [vm_compute; reflexivity|]).
  intros this enabled. unfold venue_request.
  rewrite setSandboxMode_venueId. reflexivity.
Qed.

(** ** The signer *)

Lemma sign_unfold {base : Helpers} (this : exchange) (now : N)
    (path api method : string) (params : obj) (headers : value)
    (body : option string) :
  let request := "/" ++ version this ++ "/" ++ implodeParams path params in
  let query := omit params (extractParams path) in
  let sent := request_body method query body in
  let timestamp := pretty (nonce now) in
  let payload :=
    match sent with
    | Some b => (timestamp ++ method ++ request) ++ b
    | None => timestamp ++ method ++ request
    end in
  sign this now path api method params headers body
  = if String.eqb api "private" then
      _ ← checkRequiredCredentials this;
      Ret {| url := request_url this api method request query;
             method := method; body := sent;
             headers := VObj
               {[ "SH-CRED-ID" := of_optstr (apiKey this);
                  "SH-CRED-SIG" :=
                    VStr (hmac (encode payload) (base64ToBinary (secret this))
                            "sha256" "base64");
                  "SH-CRED-TIME" := VStr timestamp;
                  "SH-CRED-PASS" := of_optstr (password this);
                  "Content-Type" := VStr "application/json" ]} |}
    else
      Ret {| url := request_url this api method request query;
             method := method; body := sent; headers := headers |}.
Proof.
  unfold sign, request_body, request_url.
  destruct (String.eqb method "GET");
    [destruct (Nat.eqb (size (omit params (extractParams path))) 0)|];
    reflexivity.
Qed.

Lemma string_app_assoc (a b c : string) : (a ++ b) ++ c = a ++ (b ++ c).
Proof.
  induction a as [|x a IH]; [reflexivity|].
  change (String x ((a ++ b) ++ c) = String x (a ++ b ++ c)). now f_equal.
Qed.

Lemma string_app_nil_r (a : string) : a ++ "" = a.
Proof.
  induction a as [|x a IH]; [reflexivity|].
  change (String x (a ++ "") = String x a). now f_equal.
Qed.

(** The payload of the specification is the string the code builds. *)
Lemma signing_payload_eq (n : N) (method path : string) (body : option string) :
  signing_payload n method path body
  = match body with
    | Some b => (pretty n ++ method ++ path) ++ b
    | None => pretty n ++ method ++ path
    end.
Proof.
  unfold signing_payload.
  destruct body as [b|]; cbn [String.concat List.app];
    repeat change (String.append "" ?x) with x.
  - rewrite !string_app_assoc. reflexivity.
  - reflexivity.
Qed.

Lemma digit_of_pretty_N_char (d : N) :
  (d < 10)%N -> digit_of (pretty_N_char d) = Some d.
Proof.
  intros Hd.
  assert (d = 0 \/ d = 1 \/ d = 2 \/ d = 3 \/ d = 4 \/ d = 5 \/ d = 6
          \/ d = 7 \/ d = 8 \/ d = 9)%N as Hc by lia.
  repeat (destruct Hc as [->|Hc]; [reflexivity|]). subst d. reflexivity.
Qed.

(** Reading back what [pretty] printed in front of [s]. *)
Lemma read_digits_pretty_N_go (x : N) (s : string) (c : Z) :
  exists d : Z,
    (0 <= d)%Z /\ ((0 < x)%N -> (0 < d)%Z)
    /\ read_digits (pretty_N_go x s) 0%N c = read_digits s x (c + d)%Z.
Proof.
  revert s. induction (N.lt_wf_0 x) as [x _ IH]. intros s.
  destruct (N.eq_0_gt_0_cases x) as [->|Hx].
  - exists 0%Z. rewrite pretty_N_go_0, Z.add_0_r. repeat split; lia.
  - rewrite pretty_N_go_step by exact Hx.
    destruct (IH (x / 10)%N (N.div_lt x 10 Hx eq_refl)
                (String (pretty_N_char (x mod 10)) s)) as (d & Hd & _ & ->).
    exists (d + 1)%Z. split; [lia|]. split; [lia|].
    cbn [read_digits].
    rewrite digit_of_pretty_N_char by (apply N.mod_lt; discriminate).
    f_equal; [|lia].
    rewrite (N.div_mod x 10) at 3 by discriminate. lia.
Qed.

(** [pretty] writes a natural number in decimal. *)
Lemma decimal_value_pretty (n : N) : decimal_value (pretty n) = Some n.
Proof.
  unfold decimal_value, pretty, pretty_N.
  destruct (decide (n = 0%N)) as [->|Hn]; [reflexivity|].
  destruct (read_digits_pretty_N_go n "" 0%Z) as (d & _ & Hd & ->).
  cbn [read_digits]. assert ((0 <? 0 + d)%Z = true) as ->; [|reflexivity].
  apply Z.ltb_lt. assert (0 < n)%N by lia. specialize (Hd ltac:(assumption)).
  lia.
Qed.

(** C1: a private call checks the credentials and then returns headers that
    carry the credential id, the signature, the nonce and the passphrase.
    The signature is [hmac] over the payload, keyed by the base64-decoded
    secret, with 'sha256' and 'base64'; the payload is the nonce in decimal,
    the method, the path ['/' + version + '/' + implodeParams (path, params)]
    and then the body exactly when the request has one. *)
Theorem sign_private {base : Helpers} (this : exchange) (now : N)
    (path method : string) (params : obj) (headers : value)
    (body : option string) :
  let request := "/" ++ version this ++ "/" ++ implodeParams path params in
  let query := omit params (extractParams path) in
  let sent := request_body method query body in
  let payload := signing_payload (nonce now) method request sent in
  sign this now path "private" method params headers body
  = (_ ← checkRequiredCredentials this;
     Ret {| url := request_url this "private" method request query;
            method := method; body := sent;
            headers := VObj
              {[ "SH-CRED-ID" := of_optstr (apiKey this);
                 "SH-CRED-SIG" :=
                   VStr (hmac (encode payload) (base64ToBinary (secret this))
                           "sha256" "base64");
                 "SH-CRED-TIME" := VStr (pretty (nonce now));
                 "SH-CRED-PASS" := of_optstr (password this);
                 "Content-Type" := VStr "application/json" ]} |})
  /\ (forall b, sent = Some b ->
        payload = pretty now ++ method ++ request ++ b)
  /\ (sent = None -> payload = pretty now ++ method ++ request)
  /\ decimal_value (pretty now) = Some now.
Proof.
  intros request query sent payload.
  assert (payload = match sent with
                    | Some b => (pretty (nonce now) ++ method ++ request) ++ b
                    | None => pretty (nonce now) ++ method ++ request
                    end) as Hp by apply signing_payload_eq.
  split; [|split; [|split]].
  - rewrite sign_unfold, Hp. reflexivity.
  - intros b Hb. rewrite Hp, Hb, !string_app_assoc. reflexivity.
  - intros Hb. rewrite Hp, Hb. reflexivity.
  - apply decimal_value_pretty.
Qed.

(** C10: with [api] other than ['private'], and so with ['public'], [sign]
    returns without calling [checkRequiredCredentials], and the headers of
    the request are the [headers] argument. *)
Theorem sign_public_headers {base : Helpers} (this : exchange) (now : N)
    (path method : string) (params : obj) (headers : value)
    (body : option string) :
  let request := "/" ++ version this ++ "/" ++ implodeParams path params in
  let query := omit params (extractParams path) in
  sign this now path "public" method params headers body
  = Ret {| url := request_url this "public" method request query;
           method := method; body := request_body method query body;
           headers := headers |}
  /\ (forall api, String.eqb api "private" = false ->
        sign this now path api method params headers body
        = Ret {| url := request_url this api method request query;
                 method := method; body := request_body method query body;
                 headers := headers |}).
Proof.
  intros request query. split.
  - rewrite sign_unfold. reflexivity.
  - intros api Hapi. rewrite sign_unfold, Hapi. reflexivity.
Qed.

(** C4: the body and the URL of a request signed without a body argument.
    A GET with a non-empty query has no body and the query in the URL, and a
    GET with an empty query has the query as a JSON body, as the
    specification has it.  A POST has no body at all and the query is sent
    nowhere, where the specification has the query as a JSON body. *)
Theorem sign_body_by_method {base : Helpers} (this : exchange) (now : N)
    (path : string) (params : obj) (headers : value) :
  let request := "/" ++ version this ++ "/" ++ implodeParams path params in
  let query := omit params (extractParams path) in
  let base_url := default "undefined" (urls_api this !! "public") ++ request in
  sign this now path "public" "GET" params headers None
  = Ret {| url := if Nat.eqb (size query) 0 then base_url
                  else base_url ++ "?" ++ urlencode query;
           method := "GET"; body := spec_body "GET" query;
           headers := headers |}
  /\ sign this now path "public" "POST" params headers None
     = Ret {| url := base_url; method := "POST"; body := None;
              headers := headers |}
  /\ spec_body "POST" query = Some (json query)
  /\ request_body "POST" query None = None
  /\ (forall api r,
        sign this now path api "POST" params headers None = Ret r ->
        body r = None
        /\ url r = default "undefined" (urls_api this !! api) ++ request).
Proof.
  intros request query base_url. split; [|split; [|split; [|split]]].
  - rewrite sign_unfold. unfold request_url, request_body, spec_body.
    fold request query. cbn [String.eqb Ascii.eqb Bool.eqb andb].
    destruct (Nat.eqb (size query) 0); reflexivity.
  - rewrite sign_unfold. reflexivity.
  - reflexivity.
  - reflexivity.
  - intros api r. rewrite sign_unfold. fold request query.
    destruct (String.eqb api "private").
    + destruct (checkRequiredCredentials this); [|discriminate].
      intros [= <-]. split; reflexivity.
    + intros [= <-]. split; reflexivity.
Qed.

(** * Further properties *)

(** ** Asset ids *)

(** X1: [s.split ('/')[0]] is the part of [s] before its first ['/']: it is
    a prefix of [s], what follows it is nothing or starts with ['/'], and it
    holds no ['/'] itself. *)
Theorem leading_segment_prefix (s : string) :
  (exists rest,
     s = leading_segment s ++ rest
     /\ (rest = "" \/ exists r, rest = String "/" r))
  /\ (forall a b, leading_segment s <> a ++ String "/" b).
Proof.
  induction s as [|c s [(rest & Hs & Hrest) Hno]]; simpl.
  - split; [exists ""; auto|]. intros [|x a] b; discriminate.
  - destruct (Ascii.eqb_spec c "/") as [->|Hc].
    + split; [exists (String "/" s); eauto|]. intros [|x a] b; discriminate.
    + split.
      * exists rest. split; [|exact Hrest].
        change (String c s = String c (leading_segment s ++ rest)).
        now f_equal.
      * intros [|x a] b; intros [= Hx Ha]; [congruence|].
        exact (Hno a b Ha).
Qed.

(** An id with no separator is its own leading segment. *)
Lemma leading_segment_id (s : string) :
  (forall a b, s <> a ++ String "/" b) -> leading_segment s = s.
Proof.
  induction s as [|c s IH]; intros Hno; [reflexivity|]. simpl.
  destruct (Ascii.eqb_spec c "/") as [->|Hc].
  - destruct (Hno "" s). reflexivity.
  - f_equal. apply IH. intros a b ->. exact (Hno (String c a) b eq_refl).
Qed.

(** ** The market catalogue *)

(** What a returned market says about its entry. *)
Lemma fetchMarkets_entry_inv {acc : Accessors} {cur : Currencies}
    (entry : value) (m : market_t) :
  fetchMarkets_entry entry = Ret m ->
  prop entry "baseAssetId" = VStr (m_baseId m)
  /\ prop entry "counterAssetId" = VStr (m_quoteId m)
  /\ m_base m = commonCurrencyCode (Some (leading_segment (m_baseId m)))
  /\ m_quote m = commonCurrencyCode (Some (leading_segment (m_quoteId m)))
  /\ m_symbol m = key_of (m_base m) ++ "/" ++ key_of (m_quote m)
  /\ m_id m = prop entry "id"
  /\ m_info m = entry
  /\ (exists amount_min,
        safeFloat entry "minimumOrderSize" None = Ret amount_min
        /\ m_limits m
           = {| l_amount := {| r_min := of_optnum amount_min; r_max := VUndef |};
                l_price := {| r_min := VUndef; r_max := VUndef |};
                l_cost := {| r_min := VUndef; r_max := VUndef |} |})
  /\ safeInteger entry "displayDecimalsPrice" = Ret (p_price (m_precision m))
  /\ safeInteger entry "displayDecimalsAmount" = Ret (p_amount (m_precision m)).
Proof.
  unfold fetchMarkets_entry. intros Hr.
  destruct (prop entry "baseAssetId") as [| | | |baseId| |];
    try discriminate Hr.
  destruct (prop entry "counterAssetId") as [| | | |quoteId| |];
    try discriminate Hr.
  bind_inv Hr amount_min Em. bind_inv Hr price Ep. bind_inv Hr amount Ea.
  injection Hr as <-. simpl. repeat split; eauto.
Qed.

(** X2: in the catalogue [fetchMarkets] returns, every market is stored under
    its own symbol, it comes from an entry of the input, its symbol is
    [base + '/' + quote], and base and quote are the normalized leading
    segments of the entry's two asset ids, which the market keeps in full. *)
Theorem fetchMarkets_keyed_by_symbol {acc : Accessors} {cur : Currencies}
    (data : list value) (res : gmap string market_t) :
  fetchMarkets data = Ret res ->
  forall (k : string) (m : market_t),
    res !! k = Some m ->
    k = m_symbol m
    /\ m_info m ∈ data
    /\ m_symbol m = key_of (m_base m) ++ "/" ++ key_of (m_quote m)
    /\ prop (m_info m) "baseAssetId" = VStr (m_baseId m)
    /\ prop (m_info m) "counterAssetId" = VStr (m_quoteId m)
    /\ m_base m = commonCurrencyCode (Some (leading_segment (m_baseId m)))
    /\ m_quote m = commonCurrencyCode (Some (leading_segment (m_quoteId m))).
Proof.
  unfold fetchMarkets.
  set (good (l : list value) (k : string) (m : market_t) :=
         k = m_symbol m
         /\ m_info m ∈ l
         /\ m_symbol m = key_of (m_base m) ++ "/" ++ key_of (m_quote m)
         /\ prop (m_info m) "baseAssetId" = VStr (m_baseId m)
         /\ prop (m_info m) "counterAssetId" = VStr (m_quoteId m)
         /\ m_base m = commonCurrencyCode (Some (leading_segment (m_baseId m)))
         /\ m_quote m
            = commonCurrencyCode (Some (leading_segment (m_quoteId m)))).
  assert (forall l done acc0 res',
            map_Forall (good done) acc0 ->
            fetchMarkets_loop l acc0 = Ret res' ->
            map_Forall (good (done ++ l)%list) res') as Hloop.
  { induction l as [|entry l IH]; intros done acc0 res' Hacc Hr.
    - injection Hr as <-. rewrite app_nil_r. exact Hacc.
    - cbn [fetchMarkets_loop] in Hr.
      destruct (fetchMarkets_entry entry) as [m|] eqn:Ee; [|discriminate Hr].
      simpl in Hr.
      replace (done ++ entry :: l)%list with ((done ++ [entry]) ++ l)%list
        by (rewrite <- app_assoc; reflexivity).
      eapply IH; [|exact Hr].
      apply map_Forall_insert_2.
      + destruct (fetchMarkets_entry_inv entry m Ee)
          as (Hb & Hq & Hbase & Hquote & Hsym & _ & Hinfo & _).
        unfold good. rewrite Hinfo. repeat split; try assumption.
        apply elem_of_app. right. apply list_elem_of_singleton. reflexivity.
      + intros k m' Hk. destruct (Hacc k m' Hk) as (? & Hin & ?).
        split; [assumption|]. split; [|assumption].
        apply elem_of_app. left. exact Hin. }
  intros Hr k m Hk.
  exact (Hloop data [] ∅ res (map_Forall_empty _) Hr k m Hk).
Qed.

Lemma fetchMarkets_keyed_by_symbol_witness :
  let entry :=
    VObj {[ "id" := VStr "SHXUSD"; "baseAssetId" := VStr "SHX/stronghold.co";
            "counterAssetId" := VStr "USD/stronghold.co";
            "minimumOrderSize" := VStr "1.0000000";
            "displayDecimalsPrice" := VNum 4%float;
            "displayDecimalsAmount" := VNum 0%float ]} in
  let m :=
    {| m_symbol := "SHX/USD"; m_id := VStr "SHXUSD"; m_base := Some "SHX";
       m_quote := Some "USD"; m_baseId := "SHX/stronghold.co";
       m_quoteId := "USD/stronghold.co";
       m_limits :=
         {| l_amount := {| r_min := VNum 1%float; r_max := VUndef |};
            l_price := {| r_min := VUndef; r_max := VUndef |};
            l_cost := {| r_min := VUndef; r_max := VUndef |} |};
       m_precision := {| p_price := Some 4%float; p_amount := Some 0%float |};
       m_info := entry |} in
  fetchMarkets (acc := model_accessors) (cur := model_currencies) [entry]
  = Ret {[ "SHX/USD" := m ]}
  /\ "SHX/USD" = m_symbol m.
Proof.
  intros entry m.
  assert (fetchMarkets (acc := model_accessors) (cur := model_currencies)
            [entry] = Ret {[ "SHX/USD" := m ]}) as Hr.
  { vm_compute. reflexivity. }
  split; [exact Hr|].
  exact (proj1 (fetchMarkets_keyed_by_symbol (acc := model_accessors)
                  (cur := model_currencies) [entry] _ Hr "SHX/USD" m
                  (lookup_singleton_eq _ _))).
Defined.

(** A property every returned entry has holds of the whole catalogue. *)
Lemma fetchMarkets_loop_Forall {acc : Accessors} {cur : Currencies}
    (P : string -> market_t -> Prop) (data : list value)
    (res res' : gmap string market_t) :
  (forall entry m, fetchMarkets_entry entry = Ret m -> P (m_symbol m) m) ->
  map_Forall P res ->
  fetchMarkets_loop data res = Ret res' ->
  map_Forall P res'.
Proof.
  intros HP. revert res.
  induction data as [|entry data IH]; intros res Hres Hr.
  - injection Hr as <-. exact Hres.
  - cbn [fetchMarkets_loop] in Hr.
    destruct (fetchMarkets_entry entry) as [m|] eqn:Ee; [|discriminate Hr].
    simpl in Hr. eapply IH; [|exact Hr].
    apply map_Forall_insert_2; [|exact Hres]. exact (HP entry m Ee).
Qed.

(** X3: no market of the catalogue has a bound the venue did not report: the
    largest amount and both bounds of price and cost are [undefined], the
    smallest amount is what [safeFloat] reads from [minimumOrderSize], and
    the two precisions are what [safeInteger] reads from
    [displayDecimalsPrice] and [displayDecimalsAmount]. *)
Theorem fetchMarkets_limits {acc : Accessors} {cur : Currencies}
    (data : list value) (res : gmap string market_t)
    (k : string) (m : market_t) :
  fetchMarkets data = Ret res ->
  res !! k = Some m ->
  r_max (l_amount (m_limits m)) = VUndef
  /\ l_price (m_limits m) = {| r_min := VUndef; r_max := VUndef |}
  /\ l_cost (m_limits m) = {| r_min := VUndef; r_max := VUndef |}
  /\ (exists amount_min,
        safeFloat (m_info m) "minimumOrderSize" None = Ret amount_min
        /\ r_min (l_amount (m_limits m)) = of_optnum amount_min)
  /\ safeInteger (m_info m) "displayDecimalsPrice"
     = Ret (p_price (m_precision m))
  /\ safeInteger (m_info m) "displayDecimalsAmount"
     = Ret (p_amount (m_precision m)).
Proof.
  intros Hr Hk. revert k m Hk.
  eapply (fetchMarkets_loop_Forall _ data ∅ res); [|apply map_Forall_empty|
                                                    exact Hr].
  intros entry m Hm.
  destruct (fetchMarkets_entry_inv entry m Hm)
    as (_ & _ & _ & _ & _ & _ & Hinfo & (a & Ha & Hl) & Hp & Hq).
  rewrite Hinfo, Hl. simpl. repeat split; eauto.
Qed.

Lemma fetchMarkets_limits_witness :
  let entry :=
    VObj {[ "id" := VStr "XLMUSD"; "baseAssetId" := VStr "XLM/native";
            "counterAssetId" := VStr "USD/stronghold.co";
            "displayDecimalsPrice" := VNum 6%float ]} in
  let m :=
    {| m_symbol := "XLM/USD"; m_id := VStr "XLMUSD"; m_base := Some "XLM";
       m_quote := Some "USD"; m_baseId := "XLM/native";
       m_quoteId := "USD/stronghold.co";
       m_limits :=
         {| l_amount := {| r_min := VUndef; r_max := VUndef |};
            l_price := {| r_min := VUndef; r_max := VUndef |};
            l_cost := {| r_min := VUndef; r_max := VUndef |} |};
       m_precision := {| p_price := Some 6%float; p_amount := None |};
       m_info := entry |} in
  fetchMarkets (acc := model_accessors) (cur := model_currencies) [entry]
  = Ret {[ "XLM/USD" := m ]}
  /\ r_max (l_amount (m_limits m)) = VUndef.
Proof.
  intros entry m.
  assert (fetchMarkets (acc := model_accessors) (cur := model_currencies)
            [entry] = Ret {[ "XLM/USD" := m ]}) as Hr.
  { vm_compute. reflexivity. }
  split; [exact Hr|].
  exact (proj1 (fetchMarkets_limits (acc := model_accessors)
                  (cur := model_currencies) [entry] _ "XLM/USD" m Hr
                  (lookup_singleton_eq _ _))).
Defined.

(** An entry that fails makes the loop fail. *)
Lemma fetchMarkets_loop_fails {acc : Accessors} {cur : Currencies}
    (data : list value) (entry : value) (res : gmap string market_t) :
  entry ∈ data ->
  returns (fetchMarkets_entry entry) = false ->
  returns (fetchMarkets_loop data res) = false.
Proof.
  intros Hin He. revert res.
  induction data as [|x data IH]; intros res; [inversion Hin|].
  cbn [fetchMarkets_loop].
  destruct (fetchMarkets_entry x) as [m|e msg] eqn:Ex; [|reflexivity].
  simpl. apply IH. apply elem_of_cons in Hin as [->|Hin]; [|exact Hin].
  rewrite Ex in He. discriminate He.
Qed.

(** X4: an entry whose [baseAssetId] or [counterAssetId] is missing, or is no
    string, fails with a TypeError before any accessor is called, and with
    such an entry anywhere in the input [fetchMarkets] returns no
    catalogue. *)
Theorem fetchMarkets_needs_asset_ids {acc : Accessors} {cur : Currencies}
    (data : list value) (entry : value) :
  entry ∈ data ->
  (forall s, prop entry "baseAssetId" <> VStr s)
  \/ (forall s, prop entry "counterAssetId" <> VStr s) ->
  fetchMarkets_entry entry
  = Throw TypeError "Cannot read properties of undefined"
  /\ returns (fetchMarkets data) = false.
Proof.
  intros Hin Hbad.
  assert (fetchMarkets_entry entry
          = Throw TypeError "Cannot read properties of undefined") as He.
  { unfold fetchMarkets_entry.
    destruct Hbad as [Hb|Hb];
      destruct (prop entry "baseAssetId") as [| | | |b| |];
      destruct (prop entry "counterAssetId") as [| | | |q| |];
      try reflexivity; edestruct Hb; reflexivity. }
  split; [exact He|].
  apply (fetchMarkets_loop_fails data entry ∅ Hin). rewrite He. reflexivity.
Qed.

Lemma fetchMarkets_needs_asset_ids_witness :
  let good :=
    VObj {[ "id" := VStr "SHXUSD"; "baseAssetId" := VStr "SHX/stronghold.co";
            "counterAssetId" := VStr "USD/stronghold.co" ]} in
  let bad := VObj {[ "id" := VStr "XLMUSD"; "baseAssetId" := VStr "XLM/native" ]} in
  returns (fetchMarkets (acc := model_accessors) (cur := model_currencies)
             [good; bad]) = false.
Proof.
  intros good bad.
  refine (proj2 (fetchMarkets_needs_asset_ids (acc := model_accessors)
                   (cur := model_currencies) [good; bad] bad _ _)).
  - apply elem_of_cons. right. apply elem_of_cons. left. reflexivity.
  - right. intros s. vm_compute. discriminate.
Defined.

(** ** Balances *)

(** X5: [fetchBalance]'s loop is all or nothing.  It returns only when every
    entry normalizes, and when it fails the error is that of the first entry
    that fails, the entries after it never being looked at. *)
Theorem fetchBalance_loop_first_error {acc : Accessors} {cur : Currencies}
    (balances : list value) (res : gmap string account_t) :
  match fetchBalance_loop balances res with
  | Ret _ => Forall (fun e => returns (fetchBalance_entry e) = true) balances
  | Throw e msg =>
      exists pre entry post,
        balances = (pre ++ entry :: post)%list
        /\ Forall (fun e => returns (fetchBalance_entry e) = true) pre
        /\ fetchBalance_entry entry = Throw e msg
  end.
Proof.
  revert res. induction balances as [|x balances IH]; intros res.
  - constructor.
  - cbn [fetchBalance_loop].
    destruct (fetchBalance_entry x) as [[code account]|e msg] eqn:Ex; simpl.
    + specialize (IH (<[key_of code := account]> res)).
      destruct (fetchBalance_loop balances _) as [r|e msg].
      * constructor; [rewrite Ex; reflexivity|exact IH].
      * destruct IH as (pre & entry & post & -> & Hpre & He).
        exists (x :: pre), entry, post. repeat split; [|exact He].
        constructor; [rewrite Ex; reflexivity|exact Hpre].
    + exists [], x, balances. repeat split; [constructor|exact Ex].
Qed.

(** The loop over two lists in a row. *)
Lemma fetchBalance_loop_app {acc : Accessors} {cur : Currencies}
    (l1 l2 : list value) (res : gmap string account_t) :
  fetchBalance_loop (l1 ++ l2)%list res
  = (r ← fetchBalance_loop l1 res; fetchBalance_loop l2 r).
Proof.
  revert res. induction l1 as [|x l1 IH]; intros res; [reflexivity|].
  cbn [fetchBalance_loop app].
  destruct (fetchBalance_entry x) as [[code account]|e msg]; simpl;
    [apply IH|reflexivity].
Qed.

(** Entries stored under other keys leave a key as it was. *)
Lemma fetchBalance_loop_other {acc : Accessors} {cur : Currencies}
    (l : list value) (res res' : gmap string account_t) (k : string) :
  (forall e c a, e ∈ l -> fetchBalance_entry e = Ret (c, a) -> key_of c <> k) ->
  fetchBalance_loop l res = Ret res' ->
  res' !! k = res !! k.
Proof.
  revert res. induction l as [|x l IH]; intros res Hk Hr.
  - injection Hr as <-. reflexivity.
  - cbn [fetchBalance_loop] in Hr.
    destruct (fetchBalance_entry x) as [[code account]|] eqn:Ex;
      [|discriminate Hr].
    simpl in Hr.
    rewrite (IH _ (fun e c a He => Hk e c a (list_elem_of_further _ _ _ He)) Hr).
    apply lookup_insert_ne. exact (Hk x code account (list_elem_of_here _ _) Ex).
Qed.

(** X6: when several entries normalize to the same currency code, the
    account in the result is that of the last of them. *)
Theorem fetchBalance_last_wins {acc : Accessors} {cur : Currencies}
    (pre post : list value) (entry : value) (code : option string)
    (account : account_t) (res res' : gmap string account_t) :
  fetchBalance_entry entry = Ret (code, account) ->
  (forall e c a, e ∈ post -> fetchBalance_entry e = Ret (c, a) ->
                 key_of c <> key_of code) ->
  fetchBalance_loop (pre ++ entry :: post)%list res = Ret res' ->
  res' !! key_of code = Some account.
Proof.
  intros He Hpost. rewrite fetchBalance_loop_app. intros Hr.
  destruct (fetchBalance_loop pre res) as [r|] eqn:Ep; [|discriminate Hr].
  simpl in Hr. cbn [fetchBalance_loop] in Hr. rewrite He in Hr. simpl in Hr.
  rewrite (fetchBalance_loop_other post _ res' (key_of code) Hpost Hr).
  apply lookup_insert_eq.
Qed.

Lemma fetchBalance_last_wins_witness :
  let first :=
    VObj {[ "assetId" := VStr "USD/stronghold.co"; "amount" := VStr "10" ]} in
  let last := VObj {[ "assetId" := VStr "USD/other"; "amount" := VStr "3" ]} in
  let account :=
    {| total := Some 3%float; available := Some 0%float; free := 3%float |} in
  fetchBalance_loop (acc := model_accessors) (cur := model_currencies)
    [first; last] ∅ = Ret {[ "USD" := account ]}
  /\ ({[ "USD" := account ]} : gmap string account_t) !! "USD" = Some account.
Proof.
  intros first last account.
  assert (fetchBalance_loop (acc := model_accessors) (cur := model_currencies)
            [first; last] ∅ = Ret {[ "USD" := account ]}) as Hr.
  { vm_compute. reflexivity. }
  split; [exact Hr|].
  refine (fetchBalance_last_wins (acc := model_accessors)
            (cur := model_currencies) [first] [] last (Some "USD") account
            ∅ _ _ _ Hr).
  - vm_compute. reflexivity.
  - intros e c a He. inversion He.
Defined.

(** X7: the currency code of a balance entry depends on its asset id only
    through the leading segment, so two entries whose asset ids share it
    land under one code, and [fetchBalance] keeps only the later of the
    two. *)
Theorem fetchBalance_same_segment {acc : Accessors} {cur : Currencies}
    (e1 e2 : value) (s1 s2 : string) (res : gmap string account_t) :
  prop e1 "assetId" = VStr s1 ->
  prop e2 "assetId" = VStr s2 ->
  leading_segment s1 = leading_segment s2 ->
  fetchBalance_loop [e1; e2] ∅ = Ret res ->
  exists code account,
    fetchBalance_entry e2 = Ret (code, account)
    /\ code = commonCurrencyCode (Some (leading_segment s1))
    /\ res = {[ key_of code := account ]}.
Proof.
  intros H1 H2 Hseg Hr. cbn [fetchBalance_loop] in Hr.
  destruct (fetchBalance_entry e1) as [[c1 a1]|] eqn:E1; [|discriminate Hr].
  simpl in Hr.
  destruct (fetchBalance_entry e2) as [[c2 a2]|] eqn:E2; [|discriminate Hr].
  simpl in Hr. injection Hr as <-.
  destruct (fetchBalance_entry_inv e1 c1 a1 E1) as (x1 & Hx1 & Hc1 & _).
  destruct (fetchBalance_entry_inv e2 c2 a2 E2) as (x2 & Hx2 & Hc2 & _).
  rewrite H1 in Hx1. injection Hx1 as <-.
  rewrite H2 in Hx2. injection Hx2 as <-.
  exists c2, a2. split; [reflexivity|].
  rewrite Hseg. split; [exact Hc2|].
  rewrite Hc1, Hc2, Hseg. apply insert_insert_eq.
Qed.

Lemma fetchBalance_same_segment_witness :
  let e1 :=
    VObj {[ "assetId" := VStr "USD/stronghold.co"; "amount" := VStr "10" ]} in
  let e2 := VObj {[ "assetId" := VStr "USD/other"; "amount" := VStr "3" ]} in
  let account :=
    {| total := Some 3%float; available := Some 0%float; free := 3%float |} in
  fetchBalance_loop (acc := model_accessors) (cur := model_currencies)
    [e1; e2] ∅ = Ret {[ "USD" := account ]}
  /\ exists code account',
       fetchBalance_entry (acc := model_accessors) (cur := model_currencies) e2
       = Ret (code, account')
       /\ code = Some "USD"
       /\ ({[ "USD" := account ]} : gmap string account_t)
          = {[ key_of code := account' ]}.
Proof.
  intros e1 e2 account.
  assert (fetchBalance_loop (acc := model_accessors) (cur := model_currencies)
            [e1; e2] ∅ = Ret {[ "USD" := account ]}) as Hr.
  { vm_compute. reflexivity. }
  split; [exact Hr|].
  refine (fetchBalance_same_segment (acc := model_accessors)
            (cur := model_currencies) e1 e2 "USD/stronghold.co" "USD/other"
            _ _ _ _ Hr); vm_compute; reflexivity.
Defined.

(** ** Currencies *)

(** X8: in the table [fetchCurrencies] returns, every currency is stored
    under its own code ([undefined] printed as a word), it comes from an
    entry of the input, and both its code and its id are read from that
    entry's [code] field. *)
Theorem fetchCurrencies_keyed_by_code {acc : Accessors} {cur : Currencies}
    (data : list value) (res : gmap string currency) :
  fetchCurrencies data = Ret res ->
  forall (k : string) (c : currency),
    res !! k = Some c ->
    k = key_of (c_code c)
    /\ c_info c ∈ data
    /\ c_code c = commonCurrencyCode (safeString (c_info c) "code")
    /\ c_id c = safeString (c_info c) "code".
Proof.
  unfold fetchCurrencies.
  set (good (l : list value) (k : string) (c : currency) :=
         k = key_of (c_code c)
         /\ c_info c ∈ l
         /\ c_code c = commonCurrencyCode (safeString (c_info c) "code")
         /\ c_id c = safeString (c_info c) "code").
  assert (forall l done acc0 res',
            map_Forall (good done) acc0 ->
            fetchCurrencies_loop l acc0 = Ret res' ->
            map_Forall (good (done ++ l)%list) res') as Hloop.
  { induction l as [|entry l IH]; intros done acc0 res' Hacc Hr.
    - injection Hr as <-. rewrite app_nil_r. exact Hacc.
    - cbn [fetchCurrencies_loop] in Hr.
      destruct (fetchCurrencies_entry entry) as [c|] eqn:Ee;
        [|discriminate Hr].
      simpl in Hr.
      replace (done ++ entry :: l)%list with ((done ++ [entry]) ++ l)%list
        by (rewrite <- app_assoc; reflexivity).
      eapply IH; [|exact Hr].
      apply map_Forall_insert_2.
      + destruct (fetchCurrencies_entry_inv entry c Ee) as (Hc & Hid & _ & Hi).
        unfold good. rewrite Hi. repeat split; try assumption.
        apply elem_of_app. right. apply list_elem_of_singleton. reflexivity.
      + intros k c' Hk. destruct (Hacc k c' Hk) as (? & Hin & ?).
        split; [assumption|]. split; [|assumption].
        apply elem_of_app. left. exact Hin. }
  intros Hr k c Hk.
  exact (Hloop data [] ∅ res (map_Forall_empty _) Hr k c Hk).
Qed.

Lemma fetchCurrencies_keyed_by_code_witness :
  let entry :=
    VObj {[ "id" := VStr "BTC/stronghold.co"; "code" := VStr "BTC";
            "displayDecimalsFull" := VNum 8%float ]} in
  let c := {| c_code := Some "BTC"; c_id := Some "BTC";
              c_precision := Some 8%float; c_info := entry |} in
  fetchCurrencies (acc := model_accessors) (cur := model_currencies) [entry]
  = Ret {[ "BTC" := c ]}
  /\ "BTC" = key_of (c_code c).
Proof.
  intros entry c.
  assert (fetchCurrencies (acc := model_accessors) (cur := model_currencies)
            [entry] = Ret {[ "BTC" := c ]}) as Hr.
  { vm_compute. reflexivity. }
  split; [exact Hr|].
  exact (proj1 (fetchCurrencies_keyed_by_code (acc := model_accessors)
                  (cur := model_currencies) [entry] _ Hr "BTC" c
                  (lookup_singleton_eq _ _))).
Defined.

(** ** Trades *)

(** X9: for a trade that is no array, [parseTrade] never uses its [market]
    argument: the market is looked up again from the trade's [marketId], so
    two calls that differ only in that argument agree. *)
Theorem parseTrade_object_ignores_market {acc : Accessors} {dates : Dates}
    (this : exchange) (trade market1 market2 : value) :
  (forall l, trade <> VArr l) ->
  parseTrade this trade market1 = parseTrade this trade market2.
Proof.
  intros Hobj. unfold parseTrade.
  destruct trade; try reflexivity. destruct (Hobj l). reflexivity.
Qed.

Lemma parseTrade_object_ignores_market_witness :
  let trade :=
    VObj {[ "id" := VStr "t1"; "marketId" := VStr "XLMUSD";
            "side" := VStr "sell"; "size" := VStr "1.0000000";
            "price" := VStr "0.10440600"; "maker" := VBool false ]} in
  parseTrade (acc := model_accessors) (dates := model_dates) describe trade
    (VNum 1548630124000%float)
  = parseTrade (acc := model_accessors) (dates := model_dates) describe trade
      VUndef.
Proof.
  intros trade.
  apply (parseTrade_object_ignores_market (acc := model_accessors)
           (dates := model_dates)).
  intros l. discriminate.
Defined.



(** X11: a trade given as an object is a maker trade exactly when its
    [maker] field is truthy, and a taker trade otherwise, so also when the
    field is missing; takerOrMaker is never left unset. *)
Theorem parseTrade_object_takerOrMaker {acc : Accessors} {dates : Dates}
    (this : exchange) (o : obj) (market : value) (t : trade_t) :
  parseTrade this (VObj o) market = Ret t ->
  t_takerOrMaker t
  = VStr (if truthy (prop (VObj o) "maker") then "maker" else "taker")
  /\ (o !! "maker" = None -> t_takerOrMaker t = VStr "taker")
  /\ t_info t = VObj o.
Proof.
  unfold parseTrade. intros Hr.
  bind_inv Hr price Ep. bind_inv Hr amount Ea.
  match type of Hr with
  | ?m ≫= _ = _ => destruct m as [symbol|] eqn:Es; [|discriminate Hr]
  end.
  simpl in Hr. injection Hr as <-. simpl.
  split; [reflexivity|]. split; [|reflexivity].
  intros ->. reflexivity.
Qed.

Lemma parseTrade_object_takerOrMaker_witness :
  let o : obj :=
    {[ "id" := VStr "t1"; "side" := VStr "buy"; "size" := VStr "2";
       "price" := VStr "0.5" ]} in
  let t :=
    {| t_id := VStr "t1"; t_info := VObj o; t_timestamp := VUndef;
       t_datetime := VUndef; t_symbol := VUndef; t_type := VUndef;
       t_order := VUndef; t_side := VStr "buy"; t_price := VNum 0.5%float;
       t_amount := VNum 2%float; t_cost := VUndef;
       t_takerOrMaker := VStr "taker";
       t_fee := {| fee_cost := VUndef; fee_currency := VUndef;
                   fee_rate := VUndef |} |} in
  parseTrade (acc := model_accessors) (dates := model_dates) describe (VObj o)
    VUndef = Ret t
  /\ t_takerOrMaker t = VStr "taker".
Proof.
  intros o t.
  assert (parseTrade (acc := model_accessors) (dates := model_dates) describe
            (VObj o) VUndef = Ret t) as Hr.
  { vm_compute. reflexivity. }
  split; [exact Hr|].
  refine (proj1 (proj2 (parseTrade_object_takerOrMaker
                          (acc := model_accessors) (dates := model_dates)
                          describe o VUndef t Hr)) _).
  vm_compute. reflexivity.
Defined.

(** ** Orders *)

(** X12: [parseOrder] fails only when the market is [null] or when one of
    its three [safeFloat] reads fails, and then with the error of the first
    read that failed, [size] before [sizeFilled] before [price]; it catches
    nothing and adds no failure of its own. *)
Theorem parseOrder_first_error {acc : Accessors} {dates : Dates}
    (order market : value) :
  match parseOrder order market with
  | Ret r =>
      market <> VNull
      /\ safeFloat order "size" None = Ret (o_amount r)
      /\ safeFloat order "sizeFilled" None = Ret (o_filled r)
      /\ safeFloat order "price" None = Ret (o_price r)
  | Throw e msg =>
      (market = VNull /\ e = TypeError)
      \/ (market <> VNull /\ safeFloat order "size" None = Throw e msg)
      \/ (market <> VNull
          /\ returns (safeFloat order "size" None) = true
          /\ safeFloat order "sizeFilled" None = Throw e msg)
      \/ (market <> VNull
          /\ returns (safeFloat order "size" None) = true
          /\ returns (safeFloat order "sizeFilled" None) = true
          /\ safeFloat order "price" None = Throw e msg)
  end.
Proof.
  unfold parseOrder.
  destruct market; simpl; try (left; split; reflexivity);
    (destruct (safeFloat order "size" None) as [a|e1 m1]; simpl;
     [|right; left; split; [discriminate|reflexivity]];
     destruct (safeFloat order "sizeFilled" None) as [f|e2 m2]; simpl;
     [|right; right; left; repeat split; discriminate];
     destruct (safeFloat order "price" None) as [p|e3 m3]; simpl;
     [repeat split; discriminate
     |right; right; right; repeat split; discriminate]).
Qed.

Lemma float_sub_nan_l (x : float) : (nan - x)%float = nan.
Proof.
  apply Prim2SF_inj. rewrite sub_spec.
  replace (Prim2SF nan) with S754_nan by (vm_compute; reflexivity).
  reflexivity.
Qed.

Lemma float_sub_nan_r (x : float) : (x - nan)%float = nan.
Proof.
  apply Prim2SF_inj. rewrite sub_spec.
  replace (Prim2SF nan) with S754_nan by (vm_compute; reflexivity).
  destruct (Prim2SF x) as [[]|[]| |]; reflexivity.
Qed.

(** X13: an order whose [size] or [sizeFilled] reads as [undefined] still
    normalizes, and its remaining is NaN. *)
Theorem parseOrder_missing_is_nan {acc : Accessors} {dates : Dates}
    (order market : value) (r : order_t) :
  parseOrder order market = Ret r ->
  o_amount r = None \/ o_filled r = None ->
  o_remaining r = nan.
Proof.
  unfold parseOrder. intros Hr.
  bind_inv Hr symbol Es. bind_inv Hr amount Ea. bind_inv Hr filled Ef.
  bind_inv Hr price Ep. injection Hr as <-. simpl.
  unfold js_sub. intros [-> | ->]; simpl.
  - apply float_sub_nan_l.
  - apply float_sub_nan_r.
Qed.

Lemma parseOrder_missing_is_nan_witness :
  let order := VObj {[ "id" := VStr "a38d8bcb"; "size" := VStr "5" ]} in
  let r :=
    {| o_id := Some "a38d8bcb"; o_info := order; o_symbol := VUndef;
       o_datetime := None; o_timestamp := None; o_side := None;
       o_amount := Some 5%float; o_filled := None; o_remaining := nan;
       o_price := None |} in
  parseOrder (acc := model_accessors) (dates := model_dates) order VUndef
  = Ret r
  /\ o_remaining r = nan.
Proof.
  intros order r.
  assert (parseOrder (acc := model_accessors) (dates := model_dates) order
            VUndef = Ret r) as Hr.
  { vm_compute. reflexivity. }
  split; [exact Hr|].
  apply (parseOrder_missing_is_nan (acc := model_accessors)
           (dates := model_dates) order VUndef r Hr).
  right. reflexivity.
Defined.

(** X14: [parseOrder] reads six fields of the order and nothing else.  With
    accessors whose answer depends only on the field they are asked for, two
    orders that agree on [id], [placedAt], [size], [sizeFilled], [side] and
    [price] normalize alike, but for the raw payload kept in [info]; so
    whatever the payload nests under any other key, [result] included, is
    not looked at. *)
Theorem parseOrder_reads_six_fields {acc : Accessors} {dates : Dates}
    (order1 order2 market : value) :
  (forall o o' k, prop o k = prop o' k -> safeString o k = safeString o' k) ->
  (forall o o' k d, prop o k = prop o' k -> safeFloat o k d = safeFloat o' k d) ->
  (forall k, k ∈ ["id"; "placedAt"; "size"; "sizeFilled"; "side"; "price"] ->
             prop order1 k = prop order2 k) ->
  match parseOrder order1 market, parseOrder order2 market with
  | Ret r1, Ret r2 =>
      o_id r1 = o_id r2 /\ o_symbol r1 = o_symbol r2
      /\ o_datetime r1 = o_datetime r2 /\ o_timestamp r1 = o_timestamp r2
      /\ o_side r1 = o_side r2 /\ o_amount r1 = o_amount r2
      /\ o_filled r1 = o_filled r2 /\ o_remaining r1 = o_remaining r2
      /\ o_price r1 = o_price r2
      /\ o_info r1 = order1 /\ o_info r2 = order2
  | Throw e1 msg1, Throw e2 msg2 => e1 = e2 /\ msg1 = msg2
  | _, _ => False
  end.
Proof.
  intros Hs Hf Hk.
  assert (forall k, k ∈ ["id"; "placedAt"; "size"; "sizeFilled"; "side"; "price"]
                    -> safeString order1 k = safeString order2 k) as Hs'.
  { intros k Hin. apply Hs, Hk, Hin. }
  assert (forall k, k ∈ ["id"; "placedAt"; "size"; "sizeFilled"; "side"; "price"]
                    -> safeFloat order1 k None = safeFloat order2 k None) as Hf'.
  { intros k Hin. apply Hf, Hk, Hin. }
  unfold parseOrder.
  rewrite (Hs' "id"), (Hs' "placedAt"), (Hs' "side"),
    (Hf' "size"), (Hf' "sizeFilled"), (Hf' "price")
    by (repeat (apply elem_of_cons; (left; reflexivity) || right)).
  destruct (market_symbol market) as [symbol|e msg]; simpl; [|auto].
  destruct (safeFloat order2 "size" None) as [a|e msg]; simpl; [|auto].
  destruct (safeFloat order2 "sizeFilled" None) as [f|e msg]; simpl; [|auto].
  destruct (safeFloat order2 "price" None) as [p|e msg]; simpl; [|auto].
  repeat split.
Qed.

Lemma model_safeString_local (o o' : value) (k : string) :
  prop o k = prop o' k ->
  safeString (Accessors := model_accessors) o k
  = safeString (Accessors := model_accessors) o' k.
Proof. simpl. unfold model_safeString. intros ->. reflexivity. Qed.

Lemma model_safeFloat_local (o o' : value) (k : string) (d : option float) :
  prop o k = prop o' k ->
  safeFloat (Accessors := model_accessors) o k d
  = safeFloat (Accessors := model_accessors) o' k d.
Proof. simpl. unfold model_safeFloat. intros ->. reflexivity. Qed.

Lemma parseOrder_reads_six_fields_witness :
  let order := VObj {[ "id" := VStr "a38d8bcb"; "size" := VStr "5";
                       "sizeFilled" := VStr "1" ]} in
  let envelope :=
    VObj {[ "id" := VStr "a38d8bcb"; "size" := VStr "5";
            "sizeFilled" := VStr "1"; "success" := VBool true;
            "result" := VObj {[ "size" := VStr "7" ]} ]} in
  match parseOrder (acc := model_accessors) (dates := model_dates) order VUndef,
        parseOrder (acc := model_accessors) (dates := model_dates) envelope
          VUndef with
  | Ret r1, Ret r2 => o_amount r1 = o_amount r2
  | Throw e1 msg1, Throw e2 msg2 => e1 = e2 /\ msg1 = msg2
  | _, _ => False
  end.
Proof.
  intros order envelope.
  pose proof (parseOrder_reads_six_fields (acc := model_accessors)
                (dates := model_dates) order envelope VUndef
                model_safeString_local model_safeFloat_local) as H.
  assert (forall k,
            k ∈ ["id"; "placedAt"; "size"; "sizeFilled"; "side"; "price"] ->
            prop order k = prop envelope k) as Hk.
  { intros k Hin.
    repeat (apply elem_of_cons in Hin as [->|Hin];
            [vm_compute; reflexivity|]).
    inversion Hin. }
  specialize (H Hk).
  destruct (parseOrder order VUndef), (parseOrder envelope VUndef);
    [|exact H..].
  destruct H as (_ & _ & _ & _ & _ & Ha & _). exact Ha.
Defined.

(** ** The sandbox toggle, on any configuration *)

(** X15: [setSandboxMode] touches nothing but the properties [main] and
    [backup] of [options['venues']]: identity, credentials, urls, error
    table, account, [venueId], payment methods, the elements of the venues
    array and every other property of it stay as they were. *)
Theorem setSandboxMode_frame (this : exchange) (enabled : bool) :
  let this' := setSandboxMode this enabled in
  id this' = id this /\ version this' = version this
  /\ urls_api this' = urls_api this
  /\ apiKey this' = apiKey this /\ secret this' = secret this
  /\ password this' = password this
  /\ exceptions this' = exceptions this
  /\ markets_by_id this' = markets_by_id this
  /\ accountId (options this') = accountId (options this)
  /\ venueId (options this') = venueId (options this)
  /\ paymentMethods (options this') = paymentMethods (options this)
  /\ elements (venues (options this')) = elements (venues (options this))
  /\ (forall k, k <> "main" -> k <> "backup" ->
        named (venues (options this')) !! k
        = named (venues (options this)) !! k).
Proof.
  unfold setSandboxMode. destruct enabled; [|case_bool_decide]; simpl;
    repeat split; intros k Hm Hb;
    rewrite ?lookup_insert_ne by congruence; reflexivity.
Qed.

(** X16: enabling and then disabling puts [main] back: the property reads
    after the two calls as it read before them, whatever the venues held;
    and disabling an exchange that was never enabled changes nothing. *)
Theorem setSandboxMode_round_trip (this : exchange) :
  get_named (venues (options (setSandboxMode (setSandboxMode this true) false)))
    "main"
  = get_named (venues (options this)) "main"
  /\ get_named
       (venues (options (setSandboxMode (setSandboxMode this true) false)))
       "sandbox"
     = get_named (venues (options this)) "sandbox"
  /\ (named (venues (options this)) !! "backup" = None ->
      setSandboxMode this false = this).
Proof.
  unfold setSandboxMode, get_named, set_named. simpl.
  rewrite bool_decide_eq_true_2.
  2:{ rewrite lookup_insert_ne by discriminate. rewrite lookup_insert_eq. eauto. }
  simpl. split; [|split].
  - rewrite lookup_insert_eq. rewrite lookup_insert_ne by discriminate.
    rewrite lookup_insert_eq. reflexivity.
  - rewrite !lookup_insert_ne by discriminate. reflexivity.
  - intros Hb. rewrite bool_decide_eq_false_2; [reflexivity|].
    rewrite Hb. intros [x Hx]. discriminate Hx.
Qed.

(** X17: enabling twice loses the live venue.  The second call saves the
    sandbox venue over the saved live one, so after disabling [main] holds
    what [sandbox] held, not what [main] held before. *)
Theorem setSandboxMode_twice (this : exchange) :
  let twice := setSandboxMode (setSandboxMode this true) true in
  get_named (venues (options twice)) "backup"
  = get_named (venues (options this)) "sandbox"
  /\ get_named (venues (options (setSandboxMode twice false))) "main"
     = get_named (venues (options this)) "sandbox".
Proof.
  unfold setSandboxMode, get_named, set_named. simpl.
  rewrite bool_decide_eq_true_2.
  2:{ rewrite lookup_insert_ne by discriminate. rewrite lookup_insert_eq. eauto. }
  simpl.
  repeat (rewrite lookup_insert_eq
          || (rewrite lookup_insert_ne by discriminate)); simpl.
  split; reflexivity.
Qed.

(** ** The error classifier, on the shipped table *)



(** ** The signer, header by header *)

(** X19: a private call fails exactly when the credential check fails, and
    then with the error of the check.  When it returns, the time header holds
    the nonce in decimal, so that it reads back as the nonce, the id and
    passphrase headers hold the key and the password as configured, and the
    method is the one asked for. *)
Theorem sign_private_headers {base : Helpers} (this : exchange) (now : N)
    (path method0 : string) (params : obj) (hdrs : value)
    (body0 : option string) :
  match sign this now path "private" method0 params hdrs body0 with
  | Ret r =>
      checkRequiredCredentials this = Ret tt
      /\ (exists t, prop (headers r) "SH-CRED-TIME" = VStr t
                    /\ decimal_value t = Some now)
      /\ prop (headers r) "SH-CRED-ID" = of_optstr (apiKey this)
      /\ prop (headers r) "SH-CRED-PASS" = of_optstr (password this)
      /\ prop (headers r) "Content-Type" = VStr "application/json"
      /\ method r = method0
  | Throw e msg => checkRequiredCredentials this = Throw e msg
  end.
Proof.
  rewrite sign_unfold. cbn [String.eqb Ascii.eqb Bool.eqb].
  destruct (checkRequiredCredentials this) as [[]|e msg]; simpl;
    [|reflexivity].
  split; [reflexivity|]. split.
  - exists (pretty (nonce now)). split; [|apply decimal_value_pretty].
    rewrite !lookup_insert_ne by discriminate. rewrite lookup_insert_eq.
    reflexivity.
  - split; [rewrite lookup_insert_eq; reflexivity|].
    split; [|split; [|reflexivity]];
      rewrite !lookup_insert_ne by discriminate;
      first [rewrite lookup_insert_eq | rewrite lookup_singleton_eq];
      reflexivity.
Qed.

Lemma string_length_app (a b : string) :
  String.length (a ++ b) = String.length a + String.length b.
Proof.
  induction a as [|x a IH]; [reflexivity|].
  change (S (String.length (a ++ b)) = S (String.length a + String.length b)).
  now f_equal.
Qed.

Lemma string_app_inv_tail (a b c : string) : a ++ c = b ++ c -> a = b.
Proof.
  assert (forall x (y : string), String.length (String x y) = S (String.length y))
    as Hlen by reflexivity.
  revert b. induction a as [|x a IH]; intros [|y b] Heq.
  - reflexivity.
  - change (c = String y (b ++ c)) in Heq.
    apply (f_equal String.length) in Heq.
    rewrite Hlen, string_length_app in Heq. lia.
  - change (String x (a ++ c) = c) in Heq.
    apply (f_equal String.length) in Heq.
    rewrite Hlen, string_length_app in Heq. lia.
  - change (String x (a ++ c) = String y (b ++ c)) in Heq.
    injection Heq as -> Heq. f_equal. apply IH, Heq.
Qed.

(** X20: two requests that differ only in the nonce have different signing
    payloads. *)
Theorem signing_payload_nonce_inj (now1 now2 : N) (method0 path : string)
    (body0 : option string) :
  now1 <> now2 ->
  signing_payload (nonce now1) method0 path body0
  <> signing_payload (nonce now2) method0 path body0.
Proof.
  intros Hne Heq. apply Hne. unfold nonce in Heq.
  rewrite !signing_payload_eq in Heq.
  apply (inj pretty).
  destruct body0 as [b|].
  - rewrite !string_app_assoc in Heq. exact (string_app_inv_tail _ _ _ Heq).
  - exact (string_app_inv_tail _ _ _ Heq).
Qed.

Lemma signing_payload_nonce_inj_witness :
  signing_payload (nonce 1548630124) "GET" "/v1/venues" None
  <> signing_payload (nonce 1548630125) "GET" "/v1/venues" None.
Proof.
  apply signing_payload_nonce_inj. discriminate.
Defined.

(** ** The account check *)

(** X21: with an [extend] that merges its arguments, the later one winning,
    [fetchBalance] takes the account from [params] when [params] has an
    [accountId] and from the options otherwise; when that value is falsy it
    throws ArgumentsRequired without looking at the balances, and otherwise
    it returns what [parseBalance] makes of the normalized entries. *)
Theorem fetchBalance_account_check
    {acc : Accessors} {cur : Currencies} {base : Helpers}
    (this : exchange) (params : obj) (balances : list value) :
  (forall a b : obj, extend a b = b ∪ a) ->
  let account := default (accountId (options this)) (params !! "accountId") in
  fetchBalance this params balances
  = if truthy account then
      res ← fetchBalance_loop balances ∅; Ret (parseBalance res)
    else
      Throw ArgumentsRequired
        (id this ++ " fetchBalance requires either the 'accountId' extra parameter or exchange.options['accountId'] = 'YOUR_ACCOUNT_ID'.").
Proof.
  intros Hext account. unfold fetchBalance. rewrite Hext.
  assert (prop (VObj (params ∪ {[ "venueId" := venueId (options this);
                                   "accountId" := accountId (options this) ]}))
            "accountId" = account) as ->.
  { unfold prop, account. rewrite lookup_union.
    rewrite lookup_insert_ne by discriminate. rewrite lookup_singleton_eq.
    destruct (params !! "accountId") as [v|]; reflexivity. }
  destruct (truthy account); reflexivity.
Qed.

Lemma fetchBalance_account_check_witness :
  fetchBalance (acc := model_accessors) (cur := model_currencies)
    (base := sample_helpers) describe
    {[ "accountId" := VStr "" ]}
    [VObj {[ "assetId" := VStr "XLM/native" ]}]
  = Throw ArgumentsRequired
      "stronghold fetchBalance requires either the 'accountId' extra parameter or exchange.options['accountId'] = 'YOUR_ACCOUNT_ID'.".
Proof.
  rewrite (fetchBalance_account_check (acc := model_accessors)
             (cur := model_currencies) (base := sample_helpers) describe
             {[ "accountId" := VStr "" ]}
             [VObj {[ "assetId" := VStr "XLM/native" ]}]
             (fun a b => eq_refl)).
  reflexivity.
Defined.

(** ** Deposit addresses *)

(** X22: with a [safeString] that reads the string stored under a key and an
    [extend] that merges, the later argument winning,
    [createDepositAddress] refuses a currency with no payment method with
    NotSupported before it looks for an account; for a currency that has one
    it throws ArgumentsRequired when neither [params] nor the options give a
    truthy [accountId], and otherwise sends the venue, the account, the
    asset id and the payment method, each overridden by [params] where
    [params] has that key. *)
Theorem createDepositAddress_checks
    {acc : Accessors} {base : Helpers} {client : Client}
    (this : exchange) (code : string) (params : obj) :
  (forall (m : gmap string string) k, safeString (VObj (VStr <$> m)) k = m !! k) ->
  (forall a b : obj, extend a b = b ∪ a) ->
  createDepositAddress_request this code params
  = match paymentMethods (options this) !! code with
    | None =>
        Throw NotSupported
          (id this ++ " createDepositAddress requires code to be BTC, ETH, or XLM")
    | Some paymentMethod =>
        if truthy (default (accountId (options this)) (params !! "accountId"))
        then
          Ret (params ∪ {[ "venueId" := venueId (options this);
                           "accountId" := accountId (options this);
                           "assetId" := currencyId code;
                           "paymentMethod" := VStr paymentMethod ]})
        else
          Throw ArgumentsRequired
            (id this ++ " createDepositAddress requires either the 'accountId' extra parameter or exchange.options['accountId'] = 'YOUR_ACCOUNT_ID'.")
    end.
Proof.
  intros Hs Hext. unfold createDepositAddress_request. rewrite Hs.
  destruct (paymentMethods (options this) !! code) as [pm|]; [|reflexivity].
  rewrite Hext.
  assert (prop (VObj (params ∪ {[ "venueId" := venueId (options this);
                                   "accountId" := accountId (options this);
                                   "assetId" := currencyId code;
                                   "paymentMethod" := VStr pm ]}))
            "accountId"
          = default (accountId (options this)) (params !! "accountId")) as ->.
  { unfold prop. rewrite lookup_union.
    rewrite lookup_insert_ne by discriminate. rewrite lookup_insert_eq.
    destruct (params !! "accountId") as [v|]; reflexivity. }
  destruct (truthy _); reflexivity.
Qed.

Lemma model_safeString_table (m : gmap string string) (k : string) :
  safeString (Accessors := model_accessors) (VObj (VStr <$> m)) k = m !! k.
Proof.
  simpl. unfold model_safeString, prop. rewrite lookup_fmap.
  destruct (m !! k); reflexivity.
Qed.

Lemma createDepositAddress_checks_witness :
  createDepositAddress_request (acc := model_accessors)
    (base := sample_helpers) (client := sample_client) describe "DOGE" ∅
  = Throw NotSupported
      "stronghold createDepositAddress requires code to be BTC, ETH, or XLM".
Proof.
  rewrite (createDepositAddress_checks (acc := model_accessors)
             (base := sample_helpers) (client := sample_client) describe
             "DOGE" ∅ model_safeString_table (fun a b => eq_refl)).
  vm_compute. reflexivity.
Defined.
